(** * FxEuropeanBarrierOption: static replication of a European single-barrier option

    A shallow embedding of [FxEuropeanBarrierOption::build]
    (OREData/ored/portfolio/fxeuropeanbarrieroption.cpp) and the properties of
    its payoff replication.

    Conventions of the embedding.
    - The numbers a trade is given (amounts, level, rebate) are of
      QuantLib's type [Real]; they are read as exact numbers and embedded as
      [Q], and rounding has no counterpart here.  The quotient
      [soldAmount_ / boughtAmount_] of line 121 can leave the finite numbers:
      it, and what is computed from it, is a [Double], a finite number, an
      infinity or NaN.  The zero of [Q] stands for the double +0.0.
    - [QL_REQUIRE] / [QL_FAIL] throw [QuantLib::Error]; a throwing computation
      returns [Throw] and everything after it is skipped.  Dereferencing a
      null pointer (the engine factory handed to [build] included) and
      reading past the end of a vector stop the computation with
      [UndefinedBehaviour].
    - The four option objects that [build] allocates are held through shared
      pointers; the composite stores the pointers.  They are named here by the
      local variable that holds them ([digital], [vanillaK], [vanillaB],
      [rebateInstrument]), so that two leaves with equal payoffs stay
      distinct. *)

From Stdlib Require Import QArith Qabs ZArith List String Bool Lia.
Import ListNotations.

Local Open Scope Q_scope.

(** ** Errors *)

Inductive Error : Type :=
| QL_Error (message : string)
| UndefinedBehaviour.

Inductive Result (A : Type) : Type :=
| Ok (a : A)
| Throw (e : Error).

Arguments Ok {A} a.
Arguments Throw {A} e.

Definition bind {A B : Type} (r : Result A) (k : A -> Result B) : Result B :=
  match r with
  | Ok a => k a
  | Throw e => Throw e
  end.

Notation "x <- c ;; k" := (bind c (fun x => k))
  (at level 61, c at next level, right associativity).
Notation "c ;;; k" := (bind c (fun _ => k))
  (at level 61, right associativity).

Definition QL_REQUIRE (condition : bool) (message : string) : Result unit :=
  if condition then Ok tt else Throw (QL_Error message).

Definition QL_FAIL {A : Type} (message : string) : Result A :=
  Throw (QL_Error message).

Definition succeeded {A : Type} (r : Result A) : bool :=
  match r with
  | Ok _ => true
  | Throw _ => false
  end.

(** ** Numbers and dates *)

Definition Real : Type := Q.

(** [a > b] on [Real]. *)
Definition Real_gt (a b : Real) : bool := negb (Qle_bool a b).

(** [a >= b] on [Real]. *)
Definition Real_ge (a b : Real) : bool := Qle_bool b a.

Definition fabs (x : Real) : Real := Qabs x.

(** A double that may not be finite. *)
Inductive Double : Type :=
| Finite (x : Q)
| PlusInfinity
| MinusInfinity
| NaN.

Coercion Finite : Q >-> Double.

(** [a / b] on two finite doubles: the quotient when [b] is not zero; for a
    zero [b] an infinity with the sign of [a], and NaN for [0 / 0]. *)
Definition Real_div (a b : Real) : Double :=
  if Qeq_bool b 0 then
    match a ?= 0 with
    | Gt => PlusInfinity
    | Lt => MinusInfinity
    | Eq => NaN
    end
  else Finite (a / b).

(** [a - b] on doubles. *)
Definition Double_minus (a b : Double) : Double :=
  match a, b with
  | NaN, _ | _, NaN => NaN
  | Finite x, Finite y => Finite (x - y)
  | Finite _, PlusInfinity => MinusInfinity
  | Finite _, MinusInfinity => PlusInfinity
  | PlusInfinity, PlusInfinity => NaN
  | PlusInfinity, _ => PlusInfinity
  | MinusInfinity, MinusInfinity => NaN
  | MinusInfinity, _ => MinusInfinity
  end.

(** [fabs] on doubles. *)
Definition Double_fabs (a : Double) : Double :=
  match a with
  | Finite x => Finite (fabs x)
  | PlusInfinity | MinusInfinity => PlusInfinity
  | NaN => NaN
  end.

(** [a > b] on doubles; false when either side is NaN. *)
Definition Double_gt (a b : Double) : bool :=
  match a, b with
  | NaN, _ | _, NaN => false
  | Finite x, Finite y => Real_gt x y
  | Finite _, PlusInfinity => false
  | Finite _, MinusInfinity => true
  | PlusInfinity, PlusInfinity => false
  | PlusInfinity, _ => true
  | MinusInfinity, _ => false
  end.

(** A [QuantLib::Date] is its serial number; [std::max] on dates is
    [(a < b) ? b : a]. *)
Definition Date : Type := Z.

Definition Date_max (a b : Date) : Date := if (a <? b)%Z then b else a.

(** ** QuantLib enumerations *)

Module OptionType.
Inductive t : Type := Put | Call.

Definition eqb (a b : t) : bool :=
  match a, b with
  | Put, Put | Call, Call => true
  | _, _ => false
  end.
End OptionType.

Module BarrierType.
Inductive t : Type := DownIn | UpIn | DownOut | UpOut.

Definition eqb (a b : t) : bool :=
  match a, b with
  | DownIn, DownIn | UpIn, UpIn | DownOut, DownOut | UpOut, UpOut => true
  | _, _ => false
  end.
End BarrierType.

Module PositionType.
Inductive t : Type := Long | Short.

Definition eqb (a b : t) : bool :=
  match a, b with
  | Long, Long | Short, Short => true
  | _, _ => false
  end.
End PositionType.

Import OptionType(Put, Call).
Import BarrierType(DownIn, UpIn, DownOut, UpOut).
Import PositionType(Long, Short).

(** ** Payoffs *)

Inductive StrikedTypePayoff : Type :=
| PlainVanillaPayoff (type : OptionType.t) (strike : Double)
| CashOrNothingPayoff (type : OptionType.t) (strike : Double)
    (cashPayoff : Double).

Definition optionType (p : StrikedTypePayoff) : OptionType.t :=
  match p with
  | PlainVanillaPayoff type _ => type
  | CashOrNothingPayoff type _ _ => type
  end.

Definition strike (p : StrikedTypePayoff) : Double :=
  match p with
  | PlainVanillaPayoff _ k => k
  | CashOrNothingPayoff _ k _ => k
  end.

Inductive Exercise : Type :=
| EuropeanExercise (date : Date).

(** ** The payoff templates (build, lines 130-135) *)

Definition payoffVanillaK (type : OptionType.t) (strike : Double) : StrikedTypePayoff :=
  PlainVanillaPayoff type strike.

Definition payoffVanillaB (type : OptionType.t) (level : Real) : StrikedTypePayoff :=
  PlainVanillaPayoff type level.

Definition payoffDigital (type : OptionType.t) (level : Real) (strike : Double)
  : StrikedTypePayoff :=
  CashOrNothingPayoff type level (Double_fabs (Double_minus level strike)).

(** ** The rebate payoff (build, lines 141-148)

    [rebatePayoff] is a shared pointer that starts out null and is assigned in
    one of two branches; there is no final [else]. *)

Definition rebatePayoff (barrierType : BarrierType.t) (level rebate : Real)
  : option StrikedTypePayoff :=
  if BarrierType.eqb barrierType UpIn || BarrierType.eqb barrierType DownOut then
    Some (CashOrNothingPayoff Put level rebate)
  else if BarrierType.eqb barrierType UpOut || BarrierType.eqb barrierType DownIn then
    Some (CashOrNothingPayoff Call level rebate)
  else
    None.

(** ** The composite (build, lines 167-207) *)

Inductive Leaf : Type := digital | vanillaK | vanillaB | rebateInstrument.

Module Leaf_.
Definition eqb (a b : Leaf) : bool :=
  match a, b with
  | digital, digital | vanillaK, vanillaK
  | vanillaB, vanillaB | rebateInstrument, rebateInstrument => true
  | _, _ => false
  end.
End Leaf_.

(** [CompositeInstrument::components_]: the (instrument, multiplier) pairs in
    the order they were added. *)
Definition CompositeInstrument : Type := list (Leaf * Real).

(** [CompositeInstrument::add(instrument, multiplier = 1.0)]. *)
Definition add (c : CompositeInstrument) (instrument : Leaf) (multiplier : Real)
  : CompositeInstrument :=
  c ++ [(instrument, multiplier)].

(** The message of the two [QL_FAIL]s; the barrier type streamed after it is
    left out. *)
Definition unknownBarrierType : string := "Unknown Barrier Type: ".

Definition replicate (type : OptionType.t) (barrierType : BarrierType.t)
    (level : Real) (strike : Double) : Result CompositeInstrument :=
  let qlInstrument : CompositeInstrument := [] in
  let qlInstrument := add qlInstrument rebateInstrument 1 in
  if OptionType.eqb type Call then
    if BarrierType.eqb barrierType UpIn || BarrierType.eqb barrierType DownOut then
      if Double_gt level strike then
        let qlInstrument := add qlInstrument vanillaB 1 in
        let qlInstrument := add qlInstrument digital 1 in
        Ok qlInstrument
      else
        let qlInstrument := add qlInstrument vanillaK 1 in
        Ok qlInstrument
    else if BarrierType.eqb barrierType UpOut || BarrierType.eqb barrierType DownIn then
      if Double_gt level strike then
        let qlInstrument := add qlInstrument vanillaK 1 in
        let qlInstrument := add qlInstrument vanillaB (-1) in
        let qlInstrument := add qlInstrument digital (-1) in
        Ok qlInstrument
      else
        Ok qlInstrument
    else
      QL_FAIL unknownBarrierType
  else if OptionType.eqb type Put then
    if BarrierType.eqb barrierType UpIn || BarrierType.eqb barrierType DownOut then
      if Double_gt level strike then
        Ok qlInstrument
      else
        let qlInstrument := add qlInstrument vanillaK 1 in
        let qlInstrument := add qlInstrument vanillaB (-1) in
        let qlInstrument := add qlInstrument digital (-1) in
        Ok qlInstrument
    else if BarrierType.eqb barrierType UpOut || BarrierType.eqb barrierType DownIn then
      if Double_gt level strike then
        let qlInstrument := add qlInstrument vanillaK 1 in
        Ok qlInstrument
      else
        let qlInstrument := add qlInstrument vanillaB 1 in
        let qlInstrument := add qlInstrument digital 1 in
        Ok qlInstrument
    else
      QL_FAIL unknownBarrierType
  else
    Ok qlInstrument.

(** The leaves of a composite other than the rebate instrument. *)
Definition nonRebate (c : CompositeInstrument) : CompositeInstrument :=
  filter (fun component => negb (Leaf_.eqb (fst component) rebateInstrument)) c.

(** The multipliers with which a leaf occurs in a composite. *)
Definition multipliers (l : Leaf) (c : CompositeInstrument) : list Real :=
  map snd (filter (fun component => Leaf_.eqb (fst component) l) c).

(** ** Trade data

    [OptionData], [BarrierData], the engine builders and the engine factory
    are declared outside the translated file; they are recorded here with the
    accessors [build] uses. *)

Module BarrierData.
Record t : Type := {
  type : string;
  levels : list Real;
  rebate : Real;
  style : string
}.
End BarrierData.

Module OptionData.
Record t (PremiumData : Type) : Type := {
  style : string;
  exerciseDates : list string;
  callPut : string;
  longShort : string;
  premiumData : PremiumData
}.
Arguments style {PremiumData}.
Arguments exerciseDates {PremiumData}.
Arguments callPut {PremiumData}.
Arguments longShort {PremiumData}.
Arguments premiumData {PremiumData}.
End OptionData.

Inductive MarketContext : Type := pricing.

Module FxEuropeanOptionEngineBuilder.
Record t (Currency PricingEngine : Type) : Type := {
  engine : Currency -> Currency -> Date -> Result PricingEngine;
  configuration : MarketContext -> string
}.
Arguments engine {Currency PricingEngine}.
Arguments configuration {Currency PricingEngine}.
End FxEuropeanOptionEngineBuilder.

Module FxDigitalOptionEngineBuilder.
Record t (Currency PricingEngine : Type) : Type := {
  engine : Currency -> Currency -> Result PricingEngine
}.
Arguments engine {Currency PricingEngine}.
End FxDigitalOptionEngineBuilder.

(** A value attached to a key of [additionalData_] (a [boost::any]). *)
Inductive any : Type :=
| any_string (s : string)
| any_Real (r : Real).

(** [m[key] = value] on a [std::map<std::string, boost::any>]. *)
Definition assign (m : list (string * any)) (key : string) (value : any)
  : list (string * any) :=
  (key, value) :: filter (fun entry => negb (String.eqb (fst entry) key)) m.

(** [v.size()] and [v.empty()]. *)
Definition size {A : Type} (v : list A) : nat := List.length v.

Definition empty {A : Type} (v : list A) : bool :=
  match v with
  | [] => true
  | _ :: _ => false
  end.

(** [v.front()] and [v[0]]. *)
Definition front {A : Type} (v : list A) : Result A :=
  match v with
  | x :: _ => Ok x
  | [] => Throw UndefinedBehaviour
  end.

(** [p->...] on a pointer that may be null. *)
Definition deref {A : Type} (p : option A) : Result A :=
  match p with
  | Some a => Ok a
  | None => Throw UndefinedBehaviour
  end.

Definition notNull {A : Type} (p : option A) : bool :=
  match p with
  | Some _ => true
  | None => false
  end.

(** ** The trade and its build *)

Section Build.

(** Types of the surrounding library that [build] only passes around. *)
Context {Currency PricingEngine PremiumData TradeAction Instrument : Type}.
Context {Market : Type}.

Inductive EngineBuilder : Type :=
| AsFxEuropeanOptionEngineBuilder
    (b : FxEuropeanOptionEngineBuilder.t Currency PricingEngine)
| AsFxDigitalOptionEngineBuilder
    (b : FxDigitalOptionEngineBuilder.t Currency PricingEngine)
| OtherEngineBuilder.

(** [boost::dynamic_pointer_cast<FxEuropeanOptionEngineBuilder>]. *)
Definition castFxEuropeanOptionEngineBuilder (p : option EngineBuilder)
  : option (FxEuropeanOptionEngineBuilder.t Currency PricingEngine) :=
  match p with
  | Some (AsFxEuropeanOptionEngineBuilder b) => Some b
  | _ => None
  end.

(** [boost::dynamic_pointer_cast<FxDigitalOptionEngineBuilder>]. *)
Definition castFxDigitalOptionEngineBuilder (p : option EngineBuilder)
  : option (FxDigitalOptionEngineBuilder.t Currency PricingEngine) :=
  match p with
  | Some (AsFxDigitalOptionEngineBuilder b) => Some b
  | _ => None
  end.

Record EngineFactory : Type := {
  market : Market;
  builder : string -> option EngineBuilder
}.

(** A [QuantLib::VanillaOption]: its payoff pointer, its exercise and the
    pricing engine bound to it, if any. *)
Record VanillaOption : Type := {
  payoff : option StrikedTypePayoff;
  exercise : Exercise;
  engine_ : option PricingEngine
}.

Definition make_VanillaOption (payoff : option StrikedTypePayoff)
    (exercise : Exercise) : VanillaOption :=
  {| payoff := payoff; exercise := exercise; engine_ := None |}.

(** The engine bound to an instrument by the call [setPricingEngine(e)];
    [build] makes this call once on each freshly made option. *)
Definition setPricingEngine (i : VanillaOption) (e : PricingEngine)
  : VanillaOption :=
  {| payoff := payoff i; exercise := exercise i; engine_ := Some e |}.

(** The composite together with the objects its components point to. *)
Record QlInstrument : Type := {
  leaf : Leaf -> VanillaOption;
  components : CompositeInstrument
}.

Record VanillaInstrument : Type := {
  qlInstrument : QlInstrument;
  multiplier : Real;
  additionalInstruments : list Instrument;
  additionalMultipliers : list Real
}.

Record FxEuropeanBarrierOption : Type := {
  option_ : OptionData.t PremiumData;
  barrier_ : BarrierData.t;
  tradeActions : list TradeAction;
  boughtCurrency_ : string;
  soldCurrency_ : string;
  boughtAmount_ : Real;
  soldAmount_ : Real;
  instrument_ : option VanillaInstrument;
  npvCurrency_ : string;
  notional_ : Real;
  notionalCurrency_ : string;
  maturity_ : Date;
  additionalData_ : list (string * any)
}.


(** Parsers and [Trade::addPremiums], defined outside the translated file.
    [addPremiums] receives the two (empty) accumulator vectors and returns
    the last premium date with the vectors as it leaves them. *)
Variable parseCurrency : string -> Result Currency.
Variable parseOptionType : string -> Result OptionType.t.
Variable parseBarrierType : string -> Result BarrierType.t.
Variable parsePositionType : string -> Result PositionType.t.
Variable parseDate : string -> Result Date.
Variable addPremiums :
  list Instrument -> list Real -> Real -> PremiumData -> Real -> Currency ->
  EngineFactory -> string -> Result (Date * (list Instrument * list Real)).

(** Lines 42-47. *)
Definition checkStructure (this : FxEuropeanBarrierOption) : Result unit :=
  QL_REQUIRE (String.eqb (OptionData.style (option_ this)) "European")
    (String.append "Option Style unknown: " (OptionData.style (option_ this))) ;;;
  QL_REQUIRE (Nat.eqb (size (OptionData.exerciseDates (option_ this))) 1)
    "Invalid number of excercise dates" ;;;
  QL_REQUIRE (Nat.eqb (size (BarrierData.levels (barrier_ this))) 1)
    "Invalid number of barrier levels" ;;;
  QL_REQUIRE (String.eqb (BarrierData.style (barrier_ this)) EmptyString
              || String.eqb (BarrierData.style (barrier_ this)) "European")
    "Only european barrier style suppported" ;;;
  QL_REQUIRE (empty (tradeActions this))
    "TradeActions not supported for FxEuropeanBarrierOption".

(** Lines 121-231, after the rebate check: replication, engines, assembly. *)
Definition buildReplication (engineFactory : EngineFactory)
    (this : FxEuropeanBarrierOption) (boughtCcy soldCcy : Currency)
    (level rebate : Real) : Result FxEuropeanBarrierOption :=
  let strike := Real_div (soldAmount_ this) (boughtAmount_ this) in
  type <- parseOptionType (OptionData.callPut (option_ this)) ;;
  expiry <- front (OptionData.exerciseDates (option_ this)) ;;
  expiryDate <- parseDate expiry ;;
  let exercise := EuropeanExercise expiryDate in
  barrierType <- parseBarrierType (BarrierData.type (barrier_ this)) ;;
  let payoffVanillaK := payoffVanillaK type strike in
  let payoffVanillaB := payoffVanillaB type level in
  let payoffDigital := payoffDigital type level strike in
  let digital_ := make_VanillaOption (Some payoffDigital) exercise in
  let vanillaK_ := make_VanillaOption (Some payoffVanillaK) exercise in
  let vanillaB_ := make_VanillaOption (Some payoffVanillaB) exercise in
  let rebatePayoff := rebatePayoff barrierType level rebate in
  let rebateInstrument_ := make_VanillaOption rebatePayoff exercise in
  let builder_ := builder engineFactory "FxOption" in
  QL_REQUIRE (notNull builder_) "No builder found for FxOption" ;;;
  let fxOptBuilder := castFxEuropeanOptionEngineBuilder builder_ in
  let builder_ := builder engineFactory "FxDigitalOption" in
  QL_REQUIRE (notNull builder_) "No builder found for FxDigitalOption" ;;;
  let fxDigitalOptBuilder := castFxDigitalOptionEngineBuilder builder_ in
  b <- deref fxDigitalOptBuilder ;;
  e <- FxDigitalOptionEngineBuilder.engine b boughtCcy soldCcy ;;
  let digital_ := setPricingEngine digital_ e in
  b <- deref fxOptBuilder ;;
  e <- FxEuropeanOptionEngineBuilder.engine b boughtCcy soldCcy expiryDate ;;
  let vanillaK_ := setPricingEngine vanillaK_ e in
  b <- deref fxOptBuilder ;;
  e <- FxEuropeanOptionEngineBuilder.engine b boughtCcy soldCcy expiryDate ;;
  let vanillaB_ := setPricingEngine vanillaB_ e in
  b <- deref fxDigitalOptBuilder ;;
  e <- FxDigitalOptionEngineBuilder.engine b boughtCcy soldCcy ;;
  let rebateInstrument_ := setPricingEngine rebateInstrument_ e in
  composite <- replicate type barrierType level strike ;;
  let qlInstrument :=
    {| leaf := fun l =>
         match l with
         | digital => digital_
         | vanillaK => vanillaK_
         | vanillaB => vanillaB_
         | rebateInstrument => rebateInstrument_
         end;
       components := composite |} in
  positionType <- parsePositionType (OptionData.longShort (option_ this)) ;;
  let bsInd : Real := if PositionType.eqb positionType Long then 1 else -1 in
  let mult := boughtAmount_ this * bsInd in
  b <- deref fxOptBuilder ;;
  premiums <- addPremiums [] [] mult (OptionData.premiumData (option_ this))
                (- bsInd) soldCcy engineFactory
                (FxEuropeanOptionEngineBuilder.configuration b pricing) ;;
  let lastPremiumDate := fst premiums in
  let additionalInstruments := fst (snd premiums) in
  let additionalMultipliers := snd (snd premiums) in
  let additionalData := additionalData_ this in
  let additionalData :=
    assign additionalData "boughtCurrency" (any_string (boughtCurrency_ this)) in
  let additionalData :=
    assign additionalData "boughtAmount" (any_Real (boughtAmount_ this)) in
  let additionalData :=
    assign additionalData "soldCurrency" (any_string (soldCurrency_ this)) in
  let additionalData :=
    assign additionalData "soldAmount" (any_Real (soldAmount_ this)) in
  Ok {| option_ := option_ this;
        barrier_ := barrier_ this;
        tradeActions := tradeActions this;
        boughtCurrency_ := boughtCurrency_ this;
        soldCurrency_ := soldCurrency_ this;
        boughtAmount_ := boughtAmount_ this;
        soldAmount_ := soldAmount_ this;
        instrument_ :=
          Some {| qlInstrument := qlInstrument;
                  multiplier := mult;
                  additionalInstruments := additionalInstruments;
                  additionalMultipliers := additionalMultipliers |};
        npvCurrency_ := soldCurrency_ this;
        notional_ := soldAmount_ this;
        notionalCurrency_ := soldCurrency_ this;
        maturity_ := Date_max lastPremiumDate expiryDate;
        additionalData_ := additionalData |}.

(** Lines 49-53, then the rest of the body. *)
Definition buildChecked (engineFactory : EngineFactory)
    (this : FxEuropeanBarrierOption) : Result FxEuropeanBarrierOption :=
  boughtCcy <- parseCurrency (boughtCurrency_ this) ;;
  soldCcy <- parseCurrency (soldCurrency_ this) ;;
  level <- front (BarrierData.levels (barrier_ this)) ;;
  let rebate := BarrierData.rebate (barrier_ this) in
  QL_REQUIRE (Real_ge rebate 0) "Rebate must be non-negative" ;;;
  buildReplication engineFactory this boughtCcy soldCcy level rebate.

(** [FxEuropeanBarrierOption::build]: the updated trade, or the error
    thrown.  [engineFactory] is the shared pointer [build] is handed; line 40
    goes through it, untested, to fetch the market, and the later lines go
    through the same pointer. *)
Definition build (engineFactory : option EngineFactory)
    (this : FxEuropeanBarrierOption) : Result FxEuropeanBarrierOption :=
  factory <- deref engineFactory ;;
  let market := market factory in
  checkStructure this ;;;
  buildChecked factory this.

End Build.

(** ** The replication table of the specification

    Section 4.4, step 3: by option type, barrier kind and whether the barrier
    level lies strictly above the strike, the leaves added besides the rebate
    leaf, with their multipliers. *)

Definition table (type : OptionType.t) (barrierKind : BarrierType.t)
    (levelAboveStrike : bool) : CompositeInstrument :=
  match type, barrierKind, levelAboveStrike with
  | Call, (UpIn | DownOut), true => [(vanillaB, 1); (digital, 1)]
  | Call, (UpIn | DownOut), false => [(vanillaK, 1)]
  | Call, (UpOut | DownIn), true => [(vanillaK, 1); (vanillaB, -1); (digital, -1)]
  | Call, (UpOut | DownIn), false => []
  | Put, (UpIn | DownOut), true => []
  | Put, (UpIn | DownOut), false => [(vanillaK, 1); (vanillaB, -1); (digital, -1)]
  | Put, (UpOut | DownIn), true => [(vanillaK, 1)]
  | Put, (UpOut | DownIn), false => [(vanillaB, 1); (digital, 1)]
  end.

(** The option type of the rebate digital, by barrier kind (4.4, step 2). *)
Definition rebateType (barrierKind : BarrierType.t) : OptionType.t :=
  match barrierKind with
  | UpIn | DownOut => Put
  | UpOut | DownIn => Call
  end.

(** ** A sample environment

    Small stand-ins for the parsers, the premium hook and the engine factory,
    and a few trades; they serve to run [build] on concrete input. *)

Module Sample.

Definition Currency : Type := string.
Definition PricingEngine : Type := string.
Definition PremiumData : Type := unit.
Definition TradeAction : Type := string.
Definition Instrument : Type := string.
Definition Market : Type := string.

Definition parseCurrency (s : string) : Result Currency :=
  if Nat.eqb (String.length s) 3 then Ok s
  else Throw (QL_Error "Currency not recognised").

Definition parseOptionType (s : string) : Result OptionType.t :=
  if String.eqb s "Call" then Ok Call
  else if String.eqb s "Put" then Ok Put
  else Throw (QL_Error "Option type not recognised").

Definition parseBarrierType (s : string) : Result BarrierType.t :=
  if String.eqb s "DownAndIn" then Ok DownIn
  else if String.eqb s "UpAndIn" then Ok UpIn
  else if String.eqb s "DownAndOut" then Ok DownOut
  else if String.eqb s "UpAndOut" then Ok UpOut
  else Throw (QL_Error "Barrier type not recognised").

Definition parsePositionType (s : string) : Result PositionType.t :=
  if String.eqb s "Long" then Ok Long
  else if String.eqb s "Short" then Ok Short
  else Throw (QL_Error "Position type not recognised").

Definition parseDate (s : string) : Result Date :=
  if String.eqb s "2020-06-30" then Ok 44012%Z
  else if String.eqb s "2020-12-31" then Ok 44196%Z
  else Throw (QL_Error "Cannot convert to Date").

Definition fxOptionBuilder : FxEuropeanOptionEngineBuilder.t Currency PricingEngine :=
  {| FxEuropeanOptionEngineBuilder.engine :=
       fun _ _ _ => Ok "AnalyticEuropeanEngine"%string;
     FxEuropeanOptionEngineBuilder.configuration := fun _ => "default"%string |}.

Definition fxDigitalOptionBuilder : FxDigitalOptionEngineBuilder.t Currency PricingEngine :=
  {| FxDigitalOptionEngineBuilder.engine :=
       fun _ _ => Ok "AnalyticEuropeanEngine"%string |}.

Definition engineFactory : @EngineFactory Currency PricingEngine Market :=
  {| market := "default"%string;
     builder := fun name =>
       if String.eqb name "FxOption" then
         Some (AsFxEuropeanOptionEngineBuilder fxOptionBuilder)
       else if String.eqb name "FxDigitalOption" then
         Some (AsFxDigitalOptionEngineBuilder fxDigitalOptionBuilder)
       else None |}.

(** No premium: the accumulators are returned as given, and the last
    premium date is [premiumDate]. *)
Definition addPremiums (premiumDate : Date)
    (additionalInstruments : list Instrument) (additionalMultipliers : list Real)
    (mult : Real) (premiumData : PremiumData) (sign : Real) (ccy : Currency)
    (factory : @EngineFactory Currency PricingEngine Market)
    (configuration : string)
  : Result (Date * (list Instrument * list Real)) :=
  Ok (premiumDate, (additionalInstruments, additionalMultipliers)).

Definition Trade : Type :=
  @FxEuropeanBarrierOption PricingEngine PremiumData TradeAction Instrument.

Definition run (premiumDate : Date) (this : Trade) : Result Trade :=
  build parseCurrency parseOptionType parseBarrierType
    parsePositionType parseDate (addPremiums premiumDate) (Some engineFactory)
    this.

(** A trade buying [bought] EUR for [sold] USD, with one barrier level. *)
Definition trade (callPut barrierType longShort : string)
    (bought sold level rebate : Real) : Trade :=
  {| option_ :=
       {| OptionData.style := "European";
          OptionData.exerciseDates := ["2020-06-30"%string];
          OptionData.callPut := callPut;
          OptionData.longShort := longShort;
          OptionData.premiumData := tt |};
     barrier_ :=
       {| BarrierData.type := barrierType;
          BarrierData.levels := [level];
          BarrierData.rebate := rebate;
          BarrierData.style := "European" |};
     tradeActions := [];
     boughtCurrency_ := "EUR";
     soldCurrency_ := "USD";
     boughtAmount_ := bought;
     soldAmount_ := sold;
     instrument_ := None;
     npvCurrency_ := EmptyString;
     notional_ := 0;
     notionalCurrency_ := EmptyString;
     maturity_ := 0%Z;
     additionalData_ := [] |}.

(** The trade that [run] leaves behind ([this] itself if [run] throws). *)
Definition built (premiumDate : Date) (this : Trade) : Trade :=
  match run premiumDate this with
  | Ok result => result
  | Throw _ => this
  end.

(** Call, up-and-out, strike 100, barrier 120, rebate 5. *)
Definition callUpOut : Trade := trade "Call" "UpAndOut" "Long" 1 100 120 5.

(** The same trade with a negative rebate. *)
Definition negativeRebate : Trade := trade "Call" "UpAndOut" "Long" 1 100 120 (-1).

(** The same trade with two exercise dates. *)
Definition twoExerciseDates : Trade :=
  {| option_ :=
       {| OptionData.style := "European";
          OptionData.exerciseDates := ["2020-06-30"%string; "2020-12-31"%string];
          OptionData.callPut := "Call";
          OptionData.longShort := "Long";
          OptionData.premiumData := tt |};
     barrier_ := barrier_ callUpOut;
     tradeActions := [];
     boughtCurrency_ := "EUR";
     soldCurrency_ := "USD";
     boughtAmount_ := 1;
     soldAmount_ := 100;
     instrument_ := None;
     npvCurrency_ := EmptyString;
     notional_ := 0;
     notionalCurrency_ := EmptyString;
     maturity_ := 0%Z;
     additionalData_ := [] |}.

(** A short put sold against a zero, and against a negative, bought amount. *)
Definition zeroBought : Trade := trade "Put" "DownAndIn" "Short" 0 100 120 5.
Definition negativeBought : Trade := trade "Put" "DownAndIn" "Short" (-2) (-200) 120 5.

End Sample.

(** ** Observations on composites and on the additional data *)

(** The net multiplier with which a leaf enters a composite. *)
Definition weight (l : Leaf) (c : CompositeInstrument) : Real :=
  fold_right Qplus 0 (multipliers l c).

(** [m.find(key)] on a [std::map<std::string, boost::any>]. *)
Definition lookup (m : list (string * any)) (key : string) : option any :=
  option_map snd (find (fun entry => String.eqb (fst entry) key) m).

(** The four assignments of lines 228-231. *)
Definition describe (m : list (string * any))
    (boughtCurrency : string) (boughtAmount : Real)
    (soldCurrency : string) (soldAmount : Real) : list (string * any) :=
  assign
    (assign
       (assign
          (assign m "boughtCurrency" (any_string boughtCurrency))
          "boughtAmount" (any_Real boughtAmount))
       "soldCurrency" (any_string soldCurrency))
    "soldAmount" (any_Real soldAmount).

(** ** Observations on the build *)

Section BuildObservations.

Context {Currency PricingEngine PremiumData TradeAction Instrument : Type}.

Variable parseCurrency : string -> Result Currency.
Variable parseOptionType : string -> Result OptionType.t.
Variable parseBarrierType : string -> Result BarrierType.t.
Variable parseDate : string -> Result Date.

(** The steps of [build] before the engine lookup (lines 42-128) succeed,
    with these currencies, option type, expiry date and barrier type. *)
Definition parsesTo
    (this : @FxEuropeanBarrierOption PricingEngine PremiumData TradeAction
              Instrument)
    (boughtCcy soldCcy : Currency)
    (type : OptionType.t) (expiryDate : Date) (barrierType : BarrierType.t)
  : Prop :=
  checkStructure this = Ok tt
  /\ parseCurrency (boughtCurrency_ this) = Ok boughtCcy
  /\ parseCurrency (soldCurrency_ this) = Ok soldCcy
  /\ 0 <= BarrierData.rebate (barrier_ this)
  /\ parseOptionType (OptionData.callPut (option_ this)) = Ok type
  /\ (exists expiry,
        OptionData.exerciseDates (option_ this) = [expiry]
        /\ parseDate expiry = Ok expiryDate)
  /\ parseBarrierType (BarrierData.type (barrier_ this)) = Ok barrierType.

(** The trade [this] with another long/short indicator. *)
Definition withLongShort
    (this : @FxEuropeanBarrierOption PricingEngine PremiumData TradeAction
              Instrument)
    (longShort : string)
  : @FxEuropeanBarrierOption PricingEngine PremiumData TradeAction Instrument :=
  {| option_ :=
       {| OptionData.style := OptionData.style (option_ this);
          OptionData.exerciseDates := OptionData.exerciseDates (option_ this);
          OptionData.callPut := OptionData.callPut (option_ this);
          OptionData.longShort := longShort;
          OptionData.premiumData := OptionData.premiumData (option_ this) |};
     barrier_ := barrier_ this;
     tradeActions := tradeActions this;
     boughtCurrency_ := boughtCurrency_ this;
     soldCurrency_ := soldCurrency_ this;
     boughtAmount_ := boughtAmount_ this;
     soldAmount_ := soldAmount_ this;
     instrument_ := instrument_ this;
     npvCurrency_ := npvCurrency_ this;
     notional_ := notional_ this;
     notionalCurrency_ := notionalCurrency_ this;
     maturity_ := maturity_ this;
     additionalData_ := additionalData_ this |}.

End BuildObservations.

(** ** Further sample factories and trades *)

Module Scenario.

Definition Factory : Type :=
  @EngineFactory Sample.Currency Sample.PricingEngine Sample.Market.

(** A factory with no builder at all. *)
Definition noBuilders : Factory :=
  {| market := "default"%string; builder := fun _ => None |}.

(** A factory that only knows "FxOption". *)
Definition noDigitalBuilder : Factory :=
  {| market := "default"%string;
     builder := fun name =>
       if String.eqb name "FxOption" then
         Some (AsFxEuropeanOptionEngineBuilder Sample.fxOptionBuilder)
       else None |}.

(** A factory whose "FxDigitalOption" builder is of another class. *)
Definition wrongDigitalClass : Factory :=
  {| market := "default"%string;
     builder := fun name =>
       if String.eqb name "FxOption" then
         Some (AsFxEuropeanOptionEngineBuilder Sample.fxOptionBuilder)
       else if String.eqb name "FxDigitalOption" then
         Some (AsFxEuropeanOptionEngineBuilder Sample.fxOptionBuilder)
       else None |}.

(** A factory whose "FxOption" builder is of another class. *)
Definition wrongOptionClass : Factory :=
  {| market := "default"%string;
     builder := fun name =>
       if String.eqb name "FxOption" then
         Some (AsFxDigitalOptionEngineBuilder Sample.fxDigitalOptionBuilder)
       else if String.eqb name "FxDigitalOption" then
         Some (AsFxDigitalOptionEngineBuilder Sample.fxDigitalOptionBuilder)
       else None |}.

Definition noVolatility : Error := QL_Error "No FX volatility surface".

(** A factory whose "FxOption" builder cannot make an engine. *)
Definition failingOptionBuilder
  : FxEuropeanOptionEngineBuilder.t Sample.Currency Sample.PricingEngine :=
  {| FxEuropeanOptionEngineBuilder.engine := fun _ _ _ => Throw noVolatility;
     FxEuropeanOptionEngineBuilder.configuration := fun _ => "default"%string |}.

Definition failingOptionEngine : Factory :=
  {| market := "default"%string;
     builder := fun name =>
       if String.eqb name "FxOption" then
         Some (AsFxEuropeanOptionEngineBuilder failingOptionBuilder)
       else if String.eqb name "FxDigitalOption" then
         Some (AsFxDigitalOptionEngineBuilder Sample.fxDigitalOptionBuilder)
       else None |}.

Definition run (factory : Factory) (this : Sample.Trade) : Result Sample.Trade :=
  build Sample.parseCurrency Sample.parseOptionType Sample.parseBarrierType
    Sample.parsePositionType Sample.parseDate (Sample.addPremiums 0%Z)
    (Some factory) this.

(** The trade that [run] leaves behind ([this] itself if [run] throws). *)
Definition built (factory : Factory) (this : Sample.Trade) : Sample.Trade :=
  match run factory this with
  | Ok result => result
  | Throw _ => this
  end.

(** An American option with two exercise dates and a side action. *)
Definition american : Sample.Trade :=
  {| option_ :=
       {| OptionData.style := "American";
          OptionData.exerciseDates := ["2020-06-30"%string; "2020-12-31"%string];
          OptionData.callPut := "Call";
          OptionData.longShort := "Long";
          OptionData.premiumData := tt |};
     barrier_ := barrier_ Sample.callUpOut;
     tradeActions := ["Break"%string];
     boughtCurrency_ := "EUR";
     soldCurrency_ := "USD";
     boughtAmount_ := 1;
     soldAmount_ := 100;
     instrument_ := None;
     npvCurrency_ := EmptyString;
     notional_ := 0;
     notionalCurrency_ := EmptyString;
     maturity_ := 0%Z;
     additionalData_ := [] |}.

(** Call, up-and-out, strike 100, barrier 80: the composite is the rebate
    leaf alone. *)
Definition callUpOutBelow : Sample.Trade :=
  Sample.trade "Call" "UpAndOut" "Long" 1 100 80 5.

(** The call of [Sample.callUpOut] with additional data already present. *)
Definition described : Sample.Trade :=
  {| option_ := option_ Sample.callUpOut;
     barrier_ := barrier_ Sample.callUpOut;
     tradeActions := [];
     boughtCurrency_ := "EUR";
     soldCurrency_ := "USD";
     boughtAmount_ := 1;
     soldAmount_ := 100;
     instrument_ := None;
     npvCurrency_ := EmptyString;
     notional_ := 0;
     notionalCurrency_ := EmptyString;
     maturity_ := 0%Z;
     additionalData_ :=
       [("boughtAmount"%string, any_Real 7);
        ("desk"%string, any_string "FX")] |}.

(** An unknown bought currency together with a negative rebate and an
    unknown option type. *)
Definition badCurrency : Sample.Trade :=
  {| option_ :=
       {| OptionData.style := "European";
          OptionData.exerciseDates := ["2020-06-30"%string];
          OptionData.callPut := "Straddle";
          OptionData.longShort := "Long";
          OptionData.premiumData := tt |};
     barrier_ := barrier_ Sample.negativeRebate;
     tradeActions := [];
     boughtCurrency_ := "EURO";
     soldCurrency_ := "USD";
     boughtAmount_ := 1;
     soldAmount_ := 100;
     instrument_ := None;
     npvCurrency_ := EmptyString;
     notional_ := 0;
     notionalCurrency_ := EmptyString;
     maturity_ := 0%Z;
     additionalData_ := [] |}.

End Scenario.

(** * Properties *)

(** ** Comparisons on [Real] *)

Lemma Real_gt_true (a b : Real) : b < a -> Real_gt a b = true.
Proof.
  intros H. unfold Real_gt.
  destruct (Qle_bool a b) eqn:E; [|reflexivity].
  apply Qle_bool_iff in E. exfalso. exact (Qlt_not_le _ _ H E).
Qed.

Lemma Real_gt_false (a b : Real) : a <= b -> Real_gt a b = false.
Proof.
  intros H. unfold Real_gt.
  apply Qle_bool_iff in H. now rewrite H.
Qed.

Lemma Real_gt_iff (a b : Real) : Real_gt a b = true <-> b < a.
Proof.
  split; [|apply Real_gt_true].
  intros H. destruct (Qlt_le_dec b a) as [L|L]; [exact L|].
  rewrite (Real_gt_false _ _ L) in H. discriminate.
Qed.

Lemma Real_ge_iff (a b : Real) : Real_ge a b = true <-> b <= a.
Proof. unfold Real_ge. apply Qle_bool_iff. Qed.

Lemma Real_ge_false (a b : Real) : a < b -> Real_ge a b = false.
Proof.
  intros H. destruct (Real_ge a b) eqn:E; [|reflexivity].
  apply Real_ge_iff in E. exfalso. exact (Qlt_not_le _ _ H E).
Qed.

Lemma Date_max_spec (a b : Date) : Date_max a b = Z.max a b.
Proof. unfold Date_max. destruct (Z.ltb_spec a b); lia. Qed.

(** ** The error monad *)

Lemma bind_Ok {A B : Type} (r : Result A) (k : A -> Result B) (b : B) :
  bind r k = Ok b -> exists a, r = Ok a /\ k a = Ok b.
Proof. destruct r as [a|e]; simpl; [eauto | discriminate]. Qed.

Lemma QL_REQUIRE_Ok (condition : bool) (message : string) (u : unit) :
  QL_REQUIRE condition message = Ok u -> condition = true.
Proof. destruct condition; [reflexivity | discriminate]. Qed.

Lemma front_Ok {A : Type} (v : list A) (x : A) :
  front v = Ok x -> exists rest, v = x :: rest.
Proof. destruct v as [|y rest]; simpl; [discriminate|]. intros [= ->]. eauto. Qed.

Lemma deref_Ok {A : Type} (p : option A) (a : A) : deref p = Ok a -> p = Some a.
Proof. destruct p; simpl; [intros [= ->]; reflexivity | discriminate]. Qed.

(** ** The replication selector *)

(** The composite of [replicate] on each side of the comparison. *)
Lemma replicate_above (type : OptionType.t) (barrierType : BarrierType.t)
    (level strike : Real) :
  strike < level ->
  replicate type barrierType level strike
  = Ok ((rebateInstrument, 1) :: table type barrierType true).
Proof.
  intros H. unfold replicate. cbn [Double_gt]. rewrite (Real_gt_true _ _ H).
  destruct type, barrierType; reflexivity.
Qed.

Lemma replicate_not_above (type : OptionType.t) (barrierType : BarrierType.t)
    (level strike : Real) :
  level <= strike ->
  replicate type barrierType level strike
  = Ok ((rebateInstrument, 1) :: table type barrierType false).
Proof.
  intros H. unfold replicate. cbn [Double_gt]. rewrite (Real_gt_false _ _ H).
  destruct type, barrierType; reflexivity.
Qed.

Lemma replicate_table (type : OptionType.t) (barrierType : BarrierType.t)
    (level : Real) (strike : Double) :
  replicate type barrierType level strike
  = Ok ((rebateInstrument, 1)
        :: table type barrierType (Double_gt level strike)).
Proof.
  unfold replicate.
  destruct (Double_gt level strike), type, barrierType; reflexivity.
Qed.




Lemma nonRebate_table (type : OptionType.t) (barrierType : BarrierType.t)
    (above : bool) :
  nonRebate ((rebateInstrument, 1) :: table type barrierType above)
  = table type barrierType above.
Proof. destruct type, barrierType, above; reflexivity. Qed.

(** The rows of [table], spelled out. *)
Lemma table_rows :
  (forall bt, bt = UpIn \/ bt = DownOut ->
     table Call bt true = [(vanillaB, 1); (digital, 1)]
     /\ table Call bt false = [(vanillaK, 1)]
     /\ table Put bt true = []
     /\ table Put bt false = [(vanillaK, 1); (vanillaB, -1); (digital, -1)])
  /\ (forall bt, bt = UpOut \/ bt = DownIn ->
     table Call bt true = [(vanillaK, 1); (vanillaB, -1); (digital, -1)]
     /\ table Call bt false = []
     /\ table Put bt true = [(vanillaK, 1)]
     /\ table Put bt false = [(vanillaB, 1); (digital, 1)]).
Proof. split; intros bt [-> | ->]; repeat split. Qed.

(** C1.  For every option type, barrier kind, strike K and barrier level B
    (in particular for K > 0 and B > 0), the leaves that the replication
    selector adds to the composite besides the rebate leaf are exactly those
    of the specification's table: the "B > K" column when K < B and the
    "B <= K" column when B <= K. *)
Theorem C1_replicate_follows_table (type : OptionType.t)
    (barrierKind : BarrierType.t) (K B : Real) :
  exists composite,
    replicate type barrierKind B K = Ok composite
    /\ (K < B -> nonRebate composite = table type barrierKind true)
    /\ (B <= K -> nonRebate composite = table type barrierKind false).
Proof.
  exists ((rebateInstrument, 1) :: table type barrierKind (Real_gt B K)).
  split; [apply replicate_table|].
  rewrite nonRebate_table. split; intros H.
  - now rewrite (Real_gt_true _ _ H).
  - now rewrite (Real_gt_false _ _ H).
Qed.

Example replicate_call_upOut_100_120 :
  replicate Call UpOut 120 100
  = Ok [(rebateInstrument, 1); (vanillaK, 1); (vanillaB, -1); (digital, -1)].
Proof. reflexivity. Qed.

Example replicate_put_downOut_120_100 :
  replicate Put DownOut 100 120
  = Ok [(rebateInstrument, 1); (vanillaK, 1); (vanillaB, -1); (digital, -1)].
Proof. reflexivity. Qed.

Example replicate_call_downIn_100_120 :
  replicate Call DownIn 120 100
  = Ok [(rebateInstrument, 1); (vanillaK, 1); (vanillaB, -1); (digital, -1)].
Proof. reflexivity. Qed.

Lemma fabs_tie (B K : Real) : B == K -> fabs (B - K) == 0.
Proof.
  intros H. unfold fabs. rewrite H.
  setoid_replace (K - K) with 0 by ring. reflexivity.
Qed.

(** C3.  When B == K the selector takes the "B <= K" column of the table,
    whatever the option type and barrier kind.  A Call/UpIn trade yields the
    rebate leaf and +vanillaK, a Put/UpOut trade yields the rebate leaf,
    +vanillaB and +digital, and the cash amount of the digital payoff is 0.
    The composites are equal as lists, hence as multisets of
    (leaf, multiplier) pairs. *)
Theorem C3_tie_routes_to_not_above (type : OptionType.t)
    (barrierKind : BarrierType.t) (K B : Real) :
  B == K ->
  replicate type barrierKind B K
    = Ok ((rebateInstrument, 1) :: table type barrierKind false)
  /\ replicate Call UpIn B K = Ok [(rebateInstrument, 1); (vanillaK, 1)]
  /\ replicate Put UpOut B K
     = Ok [(rebateInstrument, 1); (vanillaB, 1); (digital, 1)]
  /\ exists cash : Real,
       payoffDigital type B K = CashOrNothingPayoff type B cash /\ cash == 0.
Proof.
  intros H.
  assert (L : B <= K) by (rewrite H; apply Qle_refl).
  repeat split.
  - now apply replicate_not_above.
  - now rewrite replicate_not_above.
  - now rewrite replicate_not_above.
  - exists (fabs (B - K)). split; [reflexivity | now apply fabs_tie].
Qed.

Lemma C3_tie_witness :
  replicate Call UpIn (200 # 2) 100 = Ok [(rebateInstrument, 1); (vanillaK, 1)]
  /\ replicate Put UpOut (200 # 2) 100
     = Ok [(rebateInstrument, 1); (vanillaB, 1); (digital, 1)].
Proof.
  destruct (C3_tie_routes_to_not_above Call UpIn 100 (200 # 2))
    as (_ & H1 & H2 & _).
  - reflexivity.
  - split; [exact H1 | exact H2].
Defined.

(** C4.  The three payoffs made before branching: the digital is a
    cash-or-nothing payoff of the outer option type at level B whose cash
    amount is |B - K|, which is never negative; vanillaK and vanillaB are
    plain vanilla payoffs of the outer option type struck at K and at B. *)
Theorem C4_payoff_templates (type : OptionType.t) (K B : Real) :
  payoffDigital type B K = CashOrNothingPayoff type B (Qabs (B - K))
  /\ 0 <= Qabs (B - K)
  /\ (K <= B -> Qabs (B - K) == B - K)
  /\ (B <= K -> Qabs (B - K) == K - B)
  /\ payoffVanillaK type K = PlainVanillaPayoff type K
  /\ payoffVanillaB type B = PlainVanillaPayoff type B.
Proof.
  repeat split.
  - apply Qabs_nonneg.
  - intros H. apply Qabs_pos. unfold Qminus. rewrite <- Qle_minus_iff. exact H.
  - intros H. rewrite Qabs_neg.
    + ring.
    + apply Qle_minus_iff. setoid_replace (0 + - (B - K)) with (K + - B) by ring.
      rewrite <- Qle_minus_iff. exact H.
Qed.

Example payoffDigital_120_100 :
  payoffDigital Call 120 100 = CashOrNothingPayoff Call 120 20.
Proof. reflexivity. Qed.

(** C9.  In every composite the selector produces, for a finite strike as
    for an infinite or undefined one, vanillaK occurs at most once and then
    with multiplier +1; vanillaB and digital occur with the same multipliers,
    so they are present together or absent together, and when present each
    occurs once, both with +1 or both with -1. *)
Theorem C9_composite_invariant (type : OptionType.t)
    (barrierKind : BarrierType.t) (K : Double) (B : Real) :
  exists composite,
    replicate type barrierKind B K = Ok composite
    /\ (multipliers vanillaK composite = []
        \/ multipliers vanillaK composite = [1])
    /\ multipliers vanillaB composite = multipliers digital composite
    /\ (multipliers vanillaB composite = []
        \/ multipliers vanillaB composite = [1]
        \/ multipliers vanillaB composite = [-1]).
Proof.
  eexists. split; [apply replicate_table|].
  destruct type, barrierKind, (Double_gt B K); cbn; auto.
Qed.

(** ** The build *)

Section BuildProperties.

Context {Currency PricingEngine PremiumData TradeAction Instrument : Type}.
Context {Market : Type}.

Variable parseCurrency : string -> Result Currency.
Variable parseOptionType : string -> Result OptionType.t.
Variable parseBarrierType : string -> Result BarrierType.t.
Variable parsePositionType : string -> Result PositionType.t.
Variable parseDate : string -> Result Date.
Variable addPremiums :
  list Instrument -> list Real -> Real -> PremiumData -> Real -> Currency ->
  @EngineFactory Currency PricingEngine Market -> string ->
  Result (Date * (list Instrument * list Real)).

Local Abbreviation Trade :=
  (@FxEuropeanBarrierOption PricingEngine PremiumData TradeAction Instrument).
Local Abbreviation Factory := (@EngineFactory Currency PricingEngine Market).
Local Abbreviation build_ engineFactory :=
  (build parseCurrency parseOptionType parseBarrierType parsePositionType
     parseDate addPremiums (Some engineFactory)).
Local Abbreviation buildChecked_ :=
  (buildChecked parseCurrency parseOptionType parseBarrierType
     parsePositionType parseDate addPremiums).
Local Abbreviation buildReplication_ :=
  (buildReplication parseOptionType parseBarrierType parsePositionType
     parseDate addPremiums).

Ltac bind_inv H :=
  let a := fresh "a" in
  let E := fresh "E" in
  apply bind_Ok in H; destruct H as (a & E & H).

(** What the five structure checks test. *)
Lemma checkStructure_Ok (this : Trade) :
  checkStructure this = Ok tt
  <-> OptionData.style (option_ this) = "European"%string
      /\ size (OptionData.exerciseDates (option_ this)) = 1%nat
      /\ size (BarrierData.levels (barrier_ this)) = 1%nat
      /\ (BarrierData.style (barrier_ this) = EmptyString
          \/ BarrierData.style (barrier_ this) = "European"%string)
      /\ tradeActions this = [].
Proof.
  unfold checkStructure, QL_REQUIRE.
  destruct (String.eqb_spec (OptionData.style (option_ this)) "European");
    [|simpl; split; [discriminate | tauto]].
  destruct (Nat.eqb_spec (size (OptionData.exerciseDates (option_ this))) 1);
    [|simpl; split; [discriminate | tauto]].
  destruct (Nat.eqb_spec (size (BarrierData.levels (barrier_ this))) 1);
    [|simpl; split; [discriminate | tauto]].
  destruct (String.eqb_spec (BarrierData.style (barrier_ this)) EmptyString);
    destruct (String.eqb_spec (BarrierData.style (barrier_ this)) "European");
    destruct (tradeActions this) eqn:T; simpl;
    (split; [try discriminate; tauto | try tauto; intros (_ & _ & _ & ? & ?); try discriminate; tauto]).
Qed.

Lemma checkStructure_Throw (this : Trade) :
  checkStructure this <> Ok tt ->
  exists message, checkStructure this = Throw (QL_Error message).
Proof.
  unfold checkStructure, QL_REQUIRE.
  repeat match goal with
         | |- context [if ?c then _ else _] => destruct c; simpl
         end;
    try (intros H; now elim H); eauto.
Qed.

(** The reads [levels()[0]] and [exerciseDates().front()] come after the
    size checks and find an element. *)
Lemma front_guarded (this : Trade) :
  checkStructure this = Ok tt ->
  (exists level, front (BarrierData.levels (barrier_ this)) = Ok level)
  /\ (exists expiry, front (OptionData.exerciseDates (option_ this)) = Ok expiry).
Proof.
  intros C. apply checkStructure_Ok in C.
  destruct C as (_ & Cdates & Clevels & _).
  split.
  - destruct (BarrierData.levels (barrier_ this)); [discriminate | simpl; eauto].
  - destruct (OptionData.exerciseDates (option_ this));
      [discriminate | simpl; eauto].
Qed.

(** The sign of the position: [positionType == Long ? 1.0 : -1.0]. *)
Local Abbreviation bsInd positionType :=
  (if PositionType.eqb positionType Long then 1 else -1).

(** What a successful [build] has gone through, and what it leaves in the
    trade. *)
Lemma build_Ok_inv (engineFactory : Factory) (this built : Trade) :
  build_ engineFactory this = Ok built ->
  exists boughtCcy soldCcy level type expiry expiryDate barrierType
         fxOptBuilder fxDigitalOptBuilder eDigital eVanillaK eVanillaB eRebate
         composite positionType premiums instrument,
    checkStructure this = Ok tt
    /\ parseCurrency (boughtCurrency_ this) = Ok boughtCcy
    /\ parseCurrency (soldCurrency_ this) = Ok soldCcy
    /\ BarrierData.levels (barrier_ this) = [level]
    /\ 0 <= BarrierData.rebate (barrier_ this)
    /\ parseOptionType (OptionData.callPut (option_ this)) = Ok type
    /\ OptionData.exerciseDates (option_ this) = [expiry]
    /\ parseDate expiry = Ok expiryDate
    /\ parseBarrierType (BarrierData.type (barrier_ this)) = Ok barrierType
    /\ builder engineFactory "FxOption"
       = Some (AsFxEuropeanOptionEngineBuilder fxOptBuilder)
    /\ builder engineFactory "FxDigitalOption"
       = Some (AsFxDigitalOptionEngineBuilder fxDigitalOptBuilder)
    /\ FxDigitalOptionEngineBuilder.engine fxDigitalOptBuilder boughtCcy soldCcy
       = Ok eDigital
    /\ FxEuropeanOptionEngineBuilder.engine fxOptBuilder boughtCcy soldCcy expiryDate
       = Ok eVanillaK
    /\ FxEuropeanOptionEngineBuilder.engine fxOptBuilder boughtCcy soldCcy expiryDate
       = Ok eVanillaB
    /\ FxDigitalOptionEngineBuilder.engine fxDigitalOptBuilder boughtCcy soldCcy
       = Ok eRebate
    /\ replicate type barrierType level (Real_div (soldAmount_ this) (boughtAmount_ this))
       = Ok composite
    /\ parsePositionType (OptionData.longShort (option_ this)) = Ok positionType
    /\ addPremiums [] [] (boughtAmount_ this * bsInd positionType)
         (OptionData.premiumData (option_ this)) (- bsInd positionType) soldCcy
         engineFactory
         (FxEuropeanOptionEngineBuilder.configuration fxOptBuilder pricing)
       = Ok premiums
    /\ instrument_ built = Some instrument
    /\ components (qlInstrument instrument) = composite
    /\ leaf (qlInstrument instrument) digital
       = {| payoff :=
              Some (payoffDigital type level
                      (Real_div (soldAmount_ this) (boughtAmount_ this)));
            exercise := EuropeanExercise expiryDate;
            engine_ := Some eDigital |}
    /\ leaf (qlInstrument instrument) vanillaK
       = {| payoff :=
              Some (payoffVanillaK type
                      (Real_div (soldAmount_ this) (boughtAmount_ this)));
            exercise := EuropeanExercise expiryDate;
            engine_ := Some eVanillaK |}
    /\ leaf (qlInstrument instrument) vanillaB
       = {| payoff := Some (payoffVanillaB type level);
            exercise := EuropeanExercise expiryDate;
            engine_ := Some eVanillaB |}
    /\ leaf (qlInstrument instrument) rebateInstrument
       = {| payoff :=
              rebatePayoff barrierType level (BarrierData.rebate (barrier_ this));
            exercise := EuropeanExercise expiryDate;
            engine_ := Some eRebate |}
    /\ multiplier instrument = boughtAmount_ this * bsInd positionType
    /\ additionalInstruments instrument = fst (snd premiums)
    /\ additionalMultipliers instrument = snd (snd premiums)
    /\ npvCurrency_ built = soldCurrency_ this
    /\ notional_ built = soldAmount_ this
    /\ notionalCurrency_ built = soldCurrency_ this
    /\ maturity_ built = Date_max (fst premiums) expiryDate.
Proof.
  intros H. unfold build in H. cbn [deref bind] in H.
  apply bind_Ok in H. destruct H as ([] & C & H).
  unfold buildChecked in H.
  bind_inv H. rename a into boughtCcy, E into EboughtCcy.
  bind_inv H. rename a into soldCcy, E into EsoldCcy.
  bind_inv H. rename a into level, E into Elevel.
  bind_inv H. rename E into Erebate. destruct a.
  unfold buildReplication in H.
  bind_inv H. rename a into type, E into Etype.
  bind_inv H. rename a into expiry, E into Eexpiry.
  bind_inv H. rename a into expiryDate, E into EexpiryDate.
  bind_inv H. rename a into barrierType, E into EbarrierType.
  bind_inv H. rename E into Ebuilder1. destruct a.
  bind_inv H. rename E into Ebuilder2. destruct a.
  bind_inv H. rename a into fxDig, E into EfxDig.
  bind_inv H. rename a into eDigital, E into EeDigital.
  bind_inv H. rename a into fxOpt, E into EfxOpt.
  bind_inv H. rename a into eVanillaK, E into EeVanillaK.
  bind_inv H. rename a into fxOpt', E into EfxOpt'.
  bind_inv H. rename a into eVanillaB, E into EeVanillaB.
  bind_inv H. rename a into fxDig', E into EfxDig'.
  bind_inv H. rename a into eRebate, E into EeRebate.
  bind_inv H. rename a into composite, E into Ecomposite.
  bind_inv H. rename a into positionType, E into EpositionType.
  bind_inv H. rename a into fxOpt'', E into EfxOpt''.
  bind_inv H. rename a into premiums, E into Epremiums.
  injection H as <-.
  apply deref_Ok in EfxDig, EfxOpt, EfxOpt', EfxDig', EfxOpt''.
  assert (fxOpt' = fxOpt) by congruence.
  assert (fxOpt'' = fxOpt) by congruence.
  assert (fxDig' = fxDig) by congruence.
  subst fxOpt' fxOpt'' fxDig'.
  apply QL_REQUIRE_Ok, Real_ge_iff in Erebate.
  pose proof C as C'. apply checkStructure_Ok in C'.
  destruct C' as (_ & Cdates & Clevels & _).
  apply front_Ok in Elevel. destruct Elevel as (restLevels & Elevel).
  rewrite Elevel in Clevels. destruct restLevels; [|discriminate].
  apply front_Ok in Eexpiry. destruct Eexpiry as (restDates & Eexpiry).
  rewrite Eexpiry in Cdates. destruct restDates; [|discriminate].
  destruct (builder engineFactory "FxOption") as [[b1| |]|] eqn:B1;
    try discriminate.
  destruct (builder engineFactory "FxDigitalOption") as [[|b2|]|] eqn:B2;
    try discriminate.
  simpl in EfxOpt, EfxDig.
  injection EfxOpt as ->. injection EfxDig as ->.
  exists boughtCcy, soldCcy, level, type, expiry, expiryDate, barrierType,
    fxOpt, fxDig, eDigital, eVanillaK, eVanillaB, eRebate,
    composite, positionType, premiums.
  eexists. simpl.
  repeat (split; [first [eassumption | reflexivity]|]).
  reflexivity.
Qed.

(** C2.  The rebate payoff is a cash-or-nothing payoff at level B with
    cash amount R, of type Put for UpIn and DownOut and of type Call for
    UpOut and DownIn.  The selector adds the rebate leaf first, once, with
    multiplier +1, whatever the option type and the order of B and K (K
    finite or not), so the composite is never empty.  In a built trade the leaf
    [rebateInstrument] carries that payoff and heads the composite. *)
Theorem C2_rebate_leaf_always_first :
  (forall (barrierKind : BarrierType.t) (B R : Real),
      rebatePayoff barrierKind B R
      = Some (CashOrNothingPayoff (rebateType barrierKind) B R))
  /\ (forall (type : OptionType.t) (barrierKind : BarrierType.t)
             (K : Double) (B : Real),
        exists rest,
          replicate type barrierKind B K = Ok ((rebateInstrument, 1) :: rest)
          /\ multipliers rebateInstrument rest = [])
  /\ (forall (engineFactory : Factory) (this built : Trade),
        build_ engineFactory this = Ok built ->
        exists instrument barrierKind B rest,
          parseBarrierType (BarrierData.type (barrier_ this)) = Ok barrierKind
          /\ BarrierData.levels (barrier_ this) = [B]
          /\ instrument_ built = Some instrument
          /\ payoff (leaf (qlInstrument instrument) rebateInstrument)
             = Some (CashOrNothingPayoff (rebateType barrierKind) B
                       (BarrierData.rebate (barrier_ this)))
          /\ components (qlInstrument instrument)
             = (rebateInstrument, 1) :: rest).
Proof.
  assert (P : forall barrierKind B R,
             rebatePayoff barrierKind B R
             = Some (CashOrNothingPayoff (rebateType barrierKind) B R))
    by (intros []; reflexivity).
  split; [exact P|]. split.
  - intros type barrierKind K B.
    exists (table type barrierKind (Double_gt B K)).
    split; [apply replicate_table|].
    destruct type, barrierKind, (Double_gt B K); reflexivity.
  - intros engineFactory this built H.
    apply build_Ok_inv in H.
    destruct H as (boughtCcy & soldCcy & level & type & expiry & expiryDate
                   & barrierType & fxOpt & fxDig & eD & eK & eB & eR
                   & composite & positionType & premiums & instrument & H).
    decompose [and] H. clear H.
    exists instrument, barrierType, level.
    eexists. repeat (split; [eassumption|]). split.
    + match goal with
      | E : leaf _ rebateInstrument = _ |- _ => rewrite E
      end.
      simpl. apply P.
    + match goal with
      | E : components _ = _ |- _ => rewrite E
      end.
      match goal with
      | E : replicate _ _ _ _ = Ok _ |- _ =>
          rewrite replicate_table in E; injection E as <-
      end.
      reflexivity.
Qed.

(** C5.  [build] throws whenever the option style is not "European", the
    number of exercise dates is not one, the number of barrier levels is not
    one, the barrier style is neither empty nor "European", or the trade
    has side actions; a throwing [build] returns no trade.  When none of
    these holds the five checks pass and [build] goes on with the rest of
    its body. *)
Theorem C5_structure_checks (engineFactory : Factory) (this : Trade) :
  (OptionData.style (option_ this) <> "European"%string
   \/ size (OptionData.exerciseDates (option_ this)) <> 1%nat
   \/ size (BarrierData.levels (barrier_ this)) <> 1%nat
   \/ (BarrierData.style (barrier_ this) <> EmptyString
       /\ BarrierData.style (barrier_ this) <> "European"%string)
   \/ tradeActions this <> [] ->
   exists message, build_ engineFactory this = Throw (QL_Error message))
  /\ (OptionData.style (option_ this) = "European"%string
      /\ size (OptionData.exerciseDates (option_ this)) = 1%nat
      /\ size (BarrierData.levels (barrier_ this)) = 1%nat
      /\ (BarrierData.style (barrier_ this) = EmptyString
          \/ BarrierData.style (barrier_ this) = "European"%string)
      /\ tradeActions this = [] ->
      checkStructure this = Ok tt
      /\ build_ engineFactory this = buildChecked_ engineFactory this).
Proof.
  split.
  - intros V.
    destruct (checkStructure_Throw this) as (message & E).
    + intros C. apply checkStructure_Ok in C. tauto.
    + exists message. unfold build. now rewrite E.
  - intros C. apply checkStructure_Ok in C.
    split; [exact C|]. unfold build. now rewrite C.
Qed.

(** C6, as the code has it.  A negative rebate is rejected by [build]
    itself: once the five structure checks have passed and both currency
    codes have parsed, [build] throws the QuantLib error "Rebate must be
    non-negative", whatever the remaining parsers, the engine factory and
    the premium hook would do; a non-negative rebate passes this check and
    [build] goes on to the replication. *)
Theorem C6_rebate_checked_in_build (engineFactory : Factory) (this : Trade)
    (boughtCcy soldCcy : Currency) :
  checkStructure this = Ok tt ->
  parseCurrency (boughtCurrency_ this) = Ok boughtCcy ->
  parseCurrency (soldCurrency_ this) = Ok soldCcy ->
  (BarrierData.rebate (barrier_ this) < 0 ->
   build_ engineFactory this = Throw (QL_Error "Rebate must be non-negative"))
  /\ (0 <= BarrierData.rebate (barrier_ this) ->
      exists level,
        BarrierData.levels (barrier_ this) = [level]
        /\ build_ engineFactory this
           = buildReplication_ engineFactory this boughtCcy soldCcy level
               (BarrierData.rebate (barrier_ this))).
Proof.
  intros C EboughtCcy EsoldCcy.
  pose proof C as C'. apply checkStructure_Ok in C'.
  destruct C' as (_ & _ & Clevels & _).
  destruct (BarrierData.levels (barrier_ this)) as [|level [|]] eqn:Elevels;
    try discriminate.
  unfold build, buildChecked.
  rewrite C, EboughtCcy, EsoldCcy, Elevels. simpl.
  split; intros R.
  - now rewrite (Real_ge_false _ _ R).
  - exists level. split; [reflexivity|].
    apply Real_ge_iff in R. now rewrite R.
Qed.

(** C8.  After a successful [build] the instrument multiplier is the bought
    amount times +1 for a long and -1 for a short position, the NPV currency
    and the notional currency are the sold currency, the notional is the
    sold amount, and the maturity is the later of the last premium date
    returned by [addPremiums] and the expiry date. *)
Theorem C8_trade_assembly (engineFactory : Factory) (this built : Trade) :
  build_ engineFactory this = Ok built ->
  exists instrument positionType expiry expiryDate soldCcy fxOptBuilder
         lastPremiumDate additional,
    parsePositionType (OptionData.longShort (option_ this)) = Ok positionType
    /\ OptionData.exerciseDates (option_ this) = [expiry]
    /\ parseDate expiry = Ok expiryDate
    /\ parseCurrency (soldCurrency_ this) = Ok soldCcy
    /\ builder engineFactory "FxOption"
       = Some (AsFxEuropeanOptionEngineBuilder fxOptBuilder)
    /\ addPremiums [] []
         (boughtAmount_ this
          * match positionType with Long => 1 | Short => -1 end)
         (OptionData.premiumData (option_ this))
         (- match positionType with Long => 1 | Short => -1 end)
         soldCcy engineFactory
         (FxEuropeanOptionEngineBuilder.configuration fxOptBuilder pricing)
       = Ok (lastPremiumDate, additional)
    /\ instrument_ built = Some instrument
    /\ multiplier instrument
       = boughtAmount_ this
         * match positionType with Long => 1 | Short => -1 end
    /\ npvCurrency_ built = soldCurrency_ this
    /\ notionalCurrency_ built = soldCurrency_ this
    /\ notional_ built = soldAmount_ this
    /\ maturity_ built = Z.max lastPremiumDate expiryDate.
Proof.
  intros H. apply build_Ok_inv in H.
  destruct H as (boughtCcy & soldCcy & level & type & expiry & expiryDate
                 & barrierType & fxOpt & fxDig & eD & eK & eB & eR
                 & composite & positionType & [lastPremiumDate additional]
                 & instrument & H).
  decompose [and] H. clear H.
  exists instrument, positionType, expiry, expiryDate, soldCcy, fxOpt,
    lastPremiumDate, additional.
  assert (S : (if PositionType.eqb positionType Long then 1 else -1)
              = match positionType with Long => 1 | Short => -1 end)
    by (destruct positionType; reflexivity).
  rewrite <- S, <- Date_max_spec.
  repeat (split; [eassumption|]). assumption.
Qed.

(** After a successful [build] each of the four options has an engine. *)
Lemma build_engines (engineFactory : Factory) (this built : Trade) :
  build_ engineFactory this = Ok built ->
  exists instrument,
    instrument_ built = Some instrument
    /\ forall l, engine_ (leaf (qlInstrument instrument) l) <> None.
Proof.
  intros H. apply build_Ok_inv in H.
  destruct H as (boughtCcy & soldCcy & level & type & expiry & expiryDate
                 & barrierType & fxOpt & fxDig & eD & eK & eB & eR
                 & composite & positionType & premiums & instrument & H).
  decompose [and] H. clear H.
  exists instrument. split; [assumption|].
  intros [];
    match goal with
    | E : leaf _ ?l = _ |- context [leaf _ ?l] => rewrite E
    end; discriminate.
Qed.


End BuildProperties.

(** ** The build on concrete trades *)

Lemma run_callUpOut :
  Sample.run 44100%Z Sample.callUpOut = Ok (Sample.built 44100%Z Sample.callUpOut).
Proof. vm_compute. reflexivity. Qed.


(** Call, up-and-out, K = 100, B = 120, R = 5: the four leaves, their
    multipliers, the payoff of each leaf and the reported figures. *)
Example built_callUpOut :
  let built := Sample.built 44100%Z Sample.callUpOut in
  option_map (fun i => components (qlInstrument i)) (instrument_ built)
  = Some [(rebateInstrument, 1); (vanillaK, 1); (vanillaB, -1); (digital, -1)]
  /\ option_map
       (fun i => map (fun l => payoff (leaf (qlInstrument i) l))
                   [rebateInstrument; vanillaK; vanillaB; digital])
       (instrument_ built)
     = Some [Some (CashOrNothingPayoff Call 120 5);
             Some (PlainVanillaPayoff Call 100);
             Some (PlainVanillaPayoff Call 120);
             Some (CashOrNothingPayoff Call 120 20)]
  /\ option_map multiplier (instrument_ built) = Some 1
  /\ npvCurrency_ built = "USD"%string
  /\ notional_ built = 100
  /\ maturity_ built = 44100%Z.
Proof. vm_compute. repeat split. Qed.

Example run_twoExerciseDates :
  Sample.run 0%Z Sample.twoExerciseDates
  = Throw (QL_Error "Invalid number of excercise dates").
Proof. reflexivity. Qed.

(** A zero and a negative bought amount do not make [build] throw. *)
Example run_zeroBought_succeeds :
  succeeded (Sample.run 0%Z Sample.zeroBought) = true
  /\ succeeded (Sample.run 0%Z Sample.negativeBought) = true.
Proof. vm_compute. split; reflexivity. Qed.

(** Put, down-and-in, sold amount 100 against bought amount 0, barrier 120:
    the strike is 100 / 0, plus infinity; the level is not above it, so the
    composite is the rebate leaf, +vanillaB and +digital, and the cash of
    the digital is |120 - infinity|, plus infinity. *)
Example built_zeroBought :
  let built := Sample.built 0%Z Sample.zeroBought in
  option_map (fun i => components (qlInstrument i)) (instrument_ built)
  = Some [(rebateInstrument, 1); (vanillaB, 1); (digital, 1)]
  /\ option_map
       (fun i => map (fun l => payoff (leaf (qlInstrument i) l))
                   [vanillaK; vanillaB; digital])
       (instrument_ built)
     = Some [Some (PlainVanillaPayoff Put PlusInfinity);
             Some (PlainVanillaPayoff Put 120);
             Some (CashOrNothingPayoff Put 120 PlusInfinity)].
Proof. vm_compute. repeat split. Qed.

(** Strike 100 against bought amount -2 and sold amount -200. *)
Example built_negativeBought :
  let built := Sample.built 0%Z Sample.negativeBought in
  option_map (fun i => payoff (leaf (qlInstrument i) vanillaK))
    (instrument_ built)
  = Some (Some (PlainVanillaPayoff Put ((-200 # 1) / (-2 # 1)))).
Proof. vm_compute. repeat split. Qed.

Lemma C5_structure_checks_witness :
  (exists message,
      Sample.run 0%Z Sample.twoExerciseDates = Throw (QL_Error message))
  /\ checkStructure Sample.callUpOut = Ok tt.
Proof.
  split.
  - apply (proj1 (C5_structure_checks Sample.parseCurrency
                    Sample.parseOptionType Sample.parseBarrierType
                    Sample.parsePositionType Sample.parseDate
                    (Sample.addPremiums 0%Z) Sample.engineFactory
                    Sample.twoExerciseDates)).
    right. left. simpl. discriminate.
  - apply (proj2 (C5_structure_checks Sample.parseCurrency
                    Sample.parseOptionType Sample.parseBarrierType
                    Sample.parsePositionType Sample.parseDate
                    (Sample.addPremiums 0%Z) Sample.engineFactory
                    Sample.callUpOut)).
    simpl. repeat split. right. reflexivity.
Defined.

(** C6, as stated, fails: a trade with rebate -1 that passes the five
    structure checks reaches the rebate check of [build] and is rejected
    there, with the QuantLib error of line 53. *)
Lemma C6_negative_rebate_rejected_during_build :
  BarrierData.rebate (barrier_ Sample.negativeRebate) < 0
  /\ checkStructure Sample.negativeRebate = Ok tt
  /\ Sample.run 0%Z Sample.negativeRebate
     = Throw (QL_Error "Rebate must be non-negative")
  /\ succeeded (Sample.run 0%Z Sample.callUpOut) = true.
Proof. vm_compute. repeat split. Qed.

Lemma C6_rebate_checked_in_build_witness :
  Sample.run 0%Z Sample.negativeRebate
  = Throw (QL_Error "Rebate must be non-negative").
Proof.
  apply (proj1 (C6_rebate_checked_in_build Sample.parseCurrency
                  Sample.parseOptionType Sample.parseBarrierType
                  Sample.parsePositionType Sample.parseDate
                  (Sample.addPremiums 0%Z) Sample.engineFactory
                  Sample.negativeRebate "EUR"%string "USD"%string
                  eq_refl eq_refl eq_refl)).
  reflexivity.
Defined.

Lemma C8_trade_assembly_witness :
  let built := Sample.built 44100%Z Sample.callUpOut in
  npvCurrency_ built = "USD"%string
  /\ notionalCurrency_ built = "USD"%string
  /\ notional_ built = 100.
Proof.
  destruct (C8_trade_assembly Sample.parseCurrency Sample.parseOptionType
              Sample.parseBarrierType Sample.parsePositionType
              Sample.parseDate (Sample.addPremiums 44100%Z) Sample.engineFactory
              Sample.callUpOut (Sample.built 44100%Z Sample.callUpOut)
              run_callUpOut)
    as (instrument & positionType & expiry & expiryDate & soldCcy & fxOpt
        & lastPremiumDate & additional & _ & _ & _ & _ & _ & _ & _ & _
        & Hnpv & Hccy & Hnotional & _).
  exact (conj Hnpv (conj Hccy Hnotional)).
Defined.


(** * Further properties of the replication *)


(** X1.  In-out parity of the selector.  For one option type, strike
    (finite or not) and level, the knock-in and the knock-out composite of the same side (up or
    down) together hold vanillaK once, vanillaB and the digital with net
    multiplier zero, and two rebate leaves, one of each option type. *)
Theorem X1_in_out_parity (type : OptionType.t) (kIn kOut : BarrierType.t)
    (K : Double) (B : Real) :
  (kIn = UpIn /\ kOut = UpOut) \/ (kIn = DownIn /\ kOut = DownOut) ->
  exists cIn cOut,
    replicate type kIn B K = Ok cIn
    /\ replicate type kOut B K = Ok cOut
    /\ weight vanillaK cIn + weight vanillaK cOut == 1
    /\ weight vanillaB cIn + weight vanillaB cOut == 0
    /\ weight digital cIn + weight digital cOut == 0
    /\ weight rebateInstrument cIn + weight rebateInstrument cOut == 2
    /\ rebateType kIn <> rebateType kOut.
Proof.
  intros H.
  exists ((rebateInstrument, 1) :: table type kIn (Double_gt B K)),
         ((rebateInstrument, 1) :: table type kOut (Double_gt B K)).
  split; [apply replicate_table|]. split; [apply replicate_table|].
  destruct H as [[-> ->] | [-> ->]];
    destruct type, (Double_gt B K); cbn; repeat split; try discriminate.
Qed.

Lemma X1_in_out_parity_witness :
  exists cIn cOut,
    replicate Call UpIn 120 100 = Ok cIn
    /\ replicate Call UpOut 120 100 = Ok cOut
    /\ weight vanillaK cIn + weight vanillaK cOut == 1.
Proof.
  destruct (X1_in_out_parity Call UpIn UpOut 100 120)
    as (cIn & cOut & HIn & HOut & HK & _).
  - left. split; reflexivity.
  - exists cIn, cOut. repeat split; assumption.
Defined.

(** X2.  Shape of a composite.  Whatever the inputs, a strike that is not
    finite included, the selector returns
    a composite (the unknown-barrier-type failure is never reached) of one to
    four components in which no leaf occurs twice, every multiplier is +1 or
    -1, and the vanilla leaves together have net multiplier 0 or 1. *)
Theorem X2_composite_shape (type : OptionType.t) (barrierType : BarrierType.t)
    (K : Double) (B : Real) :
  exists composite,
    replicate type barrierType B K = Ok composite
    /\ NoDup (map fst composite)
    /\ Forall (fun m => m = 1 \/ m = -1) (map snd composite)
    /\ (1 <= List.length composite <= 4)%nat
    /\ (weight vanillaK composite + weight vanillaB composite == 0
        \/ weight vanillaK composite + weight vanillaB composite == 1).
Proof.
  eexists. split; [apply replicate_table|].
  destruct type, barrierType, (Double_gt B K); cbn;
    (split;
     [repeat constructor; cbn; intuition discriminate
     |split;
      [repeat (apply Forall_cons;
               [first [left; reflexivity | right; reflexivity]|]);
       apply Forall_nil
      |split; [lia | first [left; reflexivity | right; reflexivity]]]]).
Qed.



(** * Further properties of the build *)

(** ** The additional data *)

Lemma filter_and {A : Type} (p q : A -> bool) (l : list A) :
  filter p (filter q l) = filter (fun x => q x && p x) l.
Proof.
  induction l as [|x l IH]; simpl; [reflexivity|].
  destruct (q x); simpl; [destruct (p x)|]; now rewrite IH.
Qed.

Lemma find_filter {A : Type} (p q : A -> bool) (l : list A) :
  (forall x, p x = true -> q x = true) ->
  find p (filter q l) = find p l.
Proof.
  intros H. induction l as [|x l IH]; simpl; [reflexivity|].
  destruct (q x) eqn:Q; simpl.
  - destruct (p x); [reflexivity | exact IH].
  - destruct (p x) eqn:P; [|exact IH].
    apply H in P. congruence.
Qed.

Lemma lookup_assign_other (m : list (string * any)) (key key' : string)
    (value : any) :
  key' <> key -> lookup (assign m key value) key' = lookup m key'.
Proof.
  intros N. unfold lookup, assign. simpl.
  destruct (String.eqb_spec key key') as [E|_]; [now elim N|].
  rewrite find_filter; [reflexivity|].
  intros [k v]. simpl. intros E. apply String.eqb_eq in E. subst k.
  destruct (String.eqb_spec key' key) as [E|_]; [now elim N | reflexivity].
Qed.

Lemma describe_twice (m : list (string * any)) (bc : string) (ba : Real)
    (sc : string) (sa : Real) :
  describe (describe m bc ba sc sa) bc ba sc sa = describe m bc ba sc sa.
Proof.
  unfold describe, assign. simpl.
  rewrite !filter_and. do 4 f_equal. apply filter_ext. intros entry.
  destruct (fst entry =? "boughtCurrency")%string,
           (fst entry =? "boughtAmount")%string,
           (fst entry =? "soldCurrency")%string,
           (fst entry =? "soldAmount")%string; reflexivity.
Qed.

(** ** Running [build] forwards and backwards *)

Ltac bind_step H :=
  let a := fresh "a" in
  let E := fresh "E" in
  apply bind_Ok in H; destruct H as (a & E & H).

Ltac invert_build H :=
  unfold build in H; cbn [deref bind] in H;
  unfold buildChecked, buildReplication in H; repeat bind_step H.

(** Replace the computation at the head of the goal by its known outcome. *)
Ltac feed :=
  match goal with
  | |- context [bind ?x _] =>
      lazymatch x with
      | Ok _ => fail
      | Throw _ => fail
      | _ => idtac
      end;
      match goal with
      | E : _ = Ok ?a |- _ =>
          replace x with (Ok a) by (symmetry; exact E)
      | E : _ = Throw ?e |- _ =>
          lazymatch type of x with
          | Result ?A => replace x with (@Throw A e) by (symmetry; exact E)
          end
      | E : ?c = true |- _ =>
          replace x with (Ok tt) by (symmetry; unfold QL_REQUIRE; now rewrite E)
      end
  end;
  cbn [bind].

(** Two runs of one computation have one outcome. *)
Ltac merge_same :=
  repeat match goal with
         | E1 : ?x = Ok ?a, E2 : ?x = Ok ?b |- _ =>
             assert (b = a) by congruence; subst b; clear E2
         end.

Ltac unfold_build :=
  unfold build; cbn [deref bind]; unfold buildChecked, buildReplication.

Section BuildFurther.

Context {Currency PricingEngine PremiumData TradeAction Instrument : Type}.
Context {Market : Type}.

Variable parseCurrency : string -> Result Currency.
Variable parseOptionType : string -> Result OptionType.t.
Variable parseBarrierType : string -> Result BarrierType.t.
Variable parsePositionType : string -> Result PositionType.t.
Variable parseDate : string -> Result Date.
Variable addPremiums :
  list Instrument -> list Real -> Real -> PremiumData -> Real -> Currency ->
  @EngineFactory Currency PricingEngine Market -> string ->
  Result (Date * (list Instrument * list Real)).

Local Abbreviation Trade :=
  (@FxEuropeanBarrierOption PricingEngine PremiumData TradeAction Instrument).
Local Abbreviation Factory := (@EngineFactory Currency PricingEngine Market).
Local Abbreviation build_ engineFactory :=
  (build parseCurrency parseOptionType parseBarrierType parsePositionType
     parseDate addPremiums (Some engineFactory)).
Local Abbreviation bsInd positionType :=
  (if PositionType.eqb positionType Long then 1 else -1).
Local Abbreviation parsesTo_ :=
  (parsesTo parseCurrency parseOptionType parseBarrierType parseDate).

(** Under [parsesTo], [build] is what is left of it from line 152 on. *)
Ltac to_engine_lookup this P :=
  let C := fresh "C" in
  let level := fresh "level" in
  let Elevel := fresh "Elevel" in
  let Rebate := fresh "Rebate" in
  let expiry := fresh "expiry" in
  let Edates := fresh "Edates" in
  destruct P as (C & ? & ? & Rebate & ? & (expiry & Edates & ?) & ?);
  destruct (front_guarded this C) as ((level & Elevel) & _);
  apply Real_ge_iff in Rebate;
  unfold_build;
  rewrite Edates; cbn [front];
  repeat feed.

(** X4.  The first structure check that fails decides the error: a style
    other than "European" is reported with the style appended, then, in this
    order, the number of exercise dates, the number of barrier levels, the
    barrier style and the presence of side actions, each under its own
    message. *)
Theorem X4_structure_check_messages (engineFactory : Factory) (this : Trade) :
  (OptionData.style (option_ this) <> "European"%string ->
   build_ engineFactory this
   = Throw (QL_Error (String.append "Option Style unknown: "
                        (OptionData.style (option_ this)))))
  /\ (OptionData.style (option_ this) = "European"%string ->
      size (OptionData.exerciseDates (option_ this)) <> 1%nat ->
      build_ engineFactory this
      = Throw (QL_Error "Invalid number of excercise dates"))
  /\ (OptionData.style (option_ this) = "European"%string ->
      size (OptionData.exerciseDates (option_ this)) = 1%nat ->
      size (BarrierData.levels (barrier_ this)) <> 1%nat ->
      build_ engineFactory this
      = Throw (QL_Error "Invalid number of barrier levels"))
  /\ (OptionData.style (option_ this) = "European"%string ->
      size (OptionData.exerciseDates (option_ this)) = 1%nat ->
      size (BarrierData.levels (barrier_ this)) = 1%nat ->
      BarrierData.style (barrier_ this) <> EmptyString ->
      BarrierData.style (barrier_ this) <> "European"%string ->
      build_ engineFactory this
      = Throw (QL_Error "Only european barrier style suppported"))
  /\ (OptionData.style (option_ this) = "European"%string ->
      size (OptionData.exerciseDates (option_ this)) = 1%nat ->
      size (BarrierData.levels (barrier_ this)) = 1%nat ->
      (BarrierData.style (barrier_ this) = EmptyString
       \/ BarrierData.style (barrier_ this) = "European"%string) ->
      tradeActions this <> [] ->
      build_ engineFactory this
      = Throw (QL_Error
                 "TradeActions not supported for FxEuropeanBarrierOption")).
Proof.
  unfold build, checkStructure, QL_REQUIRE.
  repeat split.
  - intros S. apply String.eqb_neq in S. now rewrite S.
  - intros S D. apply String.eqb_eq in S. apply Nat.eqb_neq in D.
    now rewrite S, D.
  - intros S D L. apply String.eqb_eq in S. apply Nat.eqb_eq in D.
    apply Nat.eqb_neq in L. now rewrite S, D, L.
  - intros S D L B1 B2. apply String.eqb_eq in S. apply Nat.eqb_eq in D.
    apply Nat.eqb_eq in L. apply String.eqb_neq in B1, B2.
    now rewrite S, D, L, B1, B2.
  - intros S D L B T. apply String.eqb_eq in S. apply Nat.eqb_eq in D.
    apply Nat.eqb_eq in L.
    assert (B' : (String.eqb (BarrierData.style (barrier_ this)) EmptyString
                  || String.eqb (BarrierData.style (barrier_ this)) "European")
                 = true).
    { destruct B as [B|B]; apply String.eqb_eq in B; rewrite B;
        [reflexivity | apply orb_true_r]. }
    rewrite S, D, L, B'. simpl.
    destruct (tradeActions this); [now elim T | reflexivity].
Qed.

(** X5.  A missing builder.  When the steps before the engine lookup
    succeed, a factory without an "FxOption" builder makes [build] throw
    "No builder found for FxOption"; with that builder present and no
    "FxDigitalOption" builder it throws "No builder found for
    FxDigitalOption". *)
Theorem X5_missing_builder (engineFactory : Factory) (this : Trade)
    (boughtCcy soldCcy : Currency) (type : OptionType.t) (expiryDate : Date)
    (barrierType : BarrierType.t) :
  parsesTo_ this boughtCcy soldCcy type expiryDate barrierType ->
  (builder engineFactory "FxOption" = None ->
   build_ engineFactory this = Throw (QL_Error "No builder found for FxOption"))
  /\ (builder engineFactory "FxOption" <> None ->
      builder engineFactory "FxDigitalOption" = None ->
      build_ engineFactory this
      = Throw (QL_Error "No builder found for FxDigitalOption")).
Proof.
  intros P. to_engine_lookup this P. split.
  - intros B. now rewrite B.
  - intros B1 B2. rewrite B2.
    destruct (builder engineFactory "FxOption"); [reflexivity | now elim B1].
Qed.

(** X6.  A builder of the wrong class.  The results of the two dynamic
    casts are not tested.  When both builders are found but the one under
    "FxDigitalOption" is not a digital-option builder, [build] dereferences a
    null pointer; so it does when the digital engine has been made and the
    builder under "FxOption" is not a European-option builder. *)
Theorem X6_unchecked_cast (engineFactory : Factory) (this : Trade)
    (boughtCcy soldCcy : Currency) (type : OptionType.t) (expiryDate : Date)
    (barrierType : BarrierType.t) :
  parsesTo_ this boughtCcy soldCcy type expiryDate barrierType ->
  builder engineFactory "FxOption" <> None ->
  builder engineFactory "FxDigitalOption" <> None ->
  (castFxDigitalOptionEngineBuilder (builder engineFactory "FxDigitalOption")
   = None ->
   build_ engineFactory this = Throw UndefinedBehaviour)
  /\ (forall fxDigitalOptBuilder e,
        castFxDigitalOptionEngineBuilder
          (builder engineFactory "FxDigitalOption")
        = Some fxDigitalOptBuilder ->
        FxDigitalOptionEngineBuilder.engine fxDigitalOptBuilder boughtCcy soldCcy
        = Ok e ->
        castFxEuropeanOptionEngineBuilder (builder engineFactory "FxOption")
        = None ->
        build_ engineFactory this = Throw UndefinedBehaviour).
Proof.
  intros P B1 B2. to_engine_lookup this P.
  destruct (builder engineFactory "FxOption") as [b1|]; [|now elim B1].
  destruct (builder engineFactory "FxDigitalOption") as [b2|]; [|now elim B2].
  cbn [notNull QL_REQUIRE bind]. split.
  - intros C2. now rewrite C2.
  - intros fxDig e C2 E C1. rewrite C2. cbn [deref bind].
    rewrite E. cbn [bind]. now rewrite C1.
Qed.

(** X7.  Engines are made for all four options before the composite is put
    together.  When the digital engine cannot be made [build] throws the
    builder's error, and when the vanilla engine cannot be made it throws
    that one, whatever the option type, the barrier type and the order of
    strike and level, that is, also when the composite would hold the rebate
    leaf alone. *)
Theorem X7_engine_errors (engineFactory : Factory) (this : Trade)
    (boughtCcy soldCcy : Currency) (type : OptionType.t) (expiryDate : Date)
    (barrierType : BarrierType.t)
    (fxOptBuilder : FxEuropeanOptionEngineBuilder.t Currency PricingEngine)
    (fxDigitalOptBuilder : FxDigitalOptionEngineBuilder.t Currency PricingEngine) :
  parsesTo_ this boughtCcy soldCcy type expiryDate barrierType ->
  builder engineFactory "FxOption"
  = Some (AsFxEuropeanOptionEngineBuilder fxOptBuilder) ->
  builder engineFactory "FxDigitalOption"
  = Some (AsFxDigitalOptionEngineBuilder fxDigitalOptBuilder) ->
  (forall e,
      FxDigitalOptionEngineBuilder.engine fxDigitalOptBuilder boughtCcy soldCcy
      = Throw e ->
      build_ engineFactory this = Throw e)
  /\ (forall eDigital e,
        FxDigitalOptionEngineBuilder.engine fxDigitalOptBuilder boughtCcy soldCcy
        = Ok eDigital ->
        FxEuropeanOptionEngineBuilder.engine fxOptBuilder boughtCcy soldCcy
          expiryDate
        = Throw e ->
        build_ engineFactory this = Throw e).
Proof.
  intros P B1 B2. to_engine_lookup this P. rewrite B1, B2.
  cbn [notNull QL_REQUIRE bind castFxEuropeanOptionEngineBuilder
         castFxDigitalOptionEngineBuilder deref].
  split.
  - intros e E. now rewrite E.
  - intros eDigital e ED E. rewrite ED. cbn [bind]. now rewrite E.
Qed.

(** X8.  When [build] succeeds.  [build] returns a trade exactly when the
    five structure checks pass, both currencies, the option type, the single
    exercise date, the barrier type and the position parse, the rebate is not
    negative, the factory has a European-option builder under "FxOption" and a
    digital-option builder under "FxDigitalOption", both can make their
    engine, and the premium hook succeeds.  Nothing else is tested: neither
    the amounts, nor the level, nor the two currencies against each other. *)
Theorem X8_build_succeeds_iff (engineFactory : Factory) (this : Trade) :
  (exists built, build_ engineFactory this = Ok built)
  <-> (exists boughtCcy soldCcy type expiryDate barrierType fxOptBuilder
              fxDigitalOptBuilder positionType,
         parsesTo_ this boughtCcy soldCcy type expiryDate barrierType
         /\ builder engineFactory "FxOption"
            = Some (AsFxEuropeanOptionEngineBuilder fxOptBuilder)
         /\ builder engineFactory "FxDigitalOption"
            = Some (AsFxDigitalOptionEngineBuilder fxDigitalOptBuilder)
         /\ succeeded
              (FxDigitalOptionEngineBuilder.engine fxDigitalOptBuilder
                 boughtCcy soldCcy) = true
         /\ succeeded
              (FxEuropeanOptionEngineBuilder.engine fxOptBuilder
                 boughtCcy soldCcy expiryDate) = true
         /\ parsePositionType (OptionData.longShort (option_ this))
            = Ok positionType
         /\ succeeded
              (addPremiums [] [] (boughtAmount_ this * bsInd positionType)
                 (OptionData.premiumData (option_ this)) (- bsInd positionType)
                 soldCcy engineFactory
                 (FxEuropeanOptionEngineBuilder.configuration fxOptBuilder
                    pricing)) = true).
Proof.
  split.
  - intros (built & H). apply build_Ok_inv in H.
    destruct H as (boughtCcy & soldCcy & level & type & expiry & expiryDate
                   & barrierType & fxOpt & fxDig & eD & eK & eB & eR
                   & composite & positionType & premiums & instrument & H).
    destruct H as (C & EboughtCcy & EsoldCcy & Elevels & Rebate & Etype
                   & Edates & Edate & Ebarrier & B1 & B2 & ED & EK & EB & ER
                   & Ecomposite & Eposition & Epremiums & _).
    exists boughtCcy, soldCcy, type, expiryDate, barrierType, fxOpt, fxDig,
      positionType.
    rewrite ED, EK.
    replace (addPremiums [] [] (boughtAmount_ this * bsInd positionType)
               (OptionData.premiumData (option_ this)) (- bsInd positionType)
               soldCcy engineFactory
               (FxEuropeanOptionEngineBuilder.configuration fxOpt pricing))
      with (Ok premiums) by (symmetry; exact Epremiums).
    unfold parsesTo. repeat split; eauto.
  - intros (boughtCcy & soldCcy & type & expiryDate & barrierType & fxOpt
            & fxDig & positionType & P & B1 & B2 & SD & SV & Eposition & SP).
    destruct (FxDigitalOptionEngineBuilder.engine fxDig boughtCcy soldCcy)
      as [eD|] eqn:ED; [|discriminate].
    destruct (FxEuropeanOptionEngineBuilder.engine fxOpt boughtCcy soldCcy
                expiryDate) as [eV|] eqn:EV; [|discriminate].
    destruct (addPremiums [] [] (boughtAmount_ this * bsInd positionType)
                (OptionData.premiumData (option_ this)) (- bsInd positionType)
                soldCcy engineFactory
                (FxEuropeanOptionEngineBuilder.configuration fxOpt pricing))
      as [premiums|] eqn:EP; [|discriminate].
    to_engine_lookup this P. rewrite B1, B2.
    cbn [notNull QL_REQUIRE bind castFxEuropeanOptionEngineBuilder
           castFxDigitalOptionEngineBuilder deref].
    repeat feed. rewrite replicate_table. cbn [bind]. repeat feed.
    eexists. reflexivity.
Qed.

(** X9.  [build] leaves the terms of the trade as they were: the option
    data, the barrier data, the side actions, both currencies and both
    amounts of the built trade are those it was given. *)
Theorem X9_build_keeps_terms (engineFactory : Factory) (this built : Trade) :
  build_ engineFactory this = Ok built ->
  option_ built = option_ this
  /\ barrier_ built = barrier_ this
  /\ tradeActions built = tradeActions this
  /\ boughtCurrency_ built = boughtCurrency_ this
  /\ soldCurrency_ built = soldCurrency_ this
  /\ boughtAmount_ built = boughtAmount_ this
  /\ soldAmount_ built = soldAmount_ this.
Proof.
  intros H. invert_build H. injection H as <-. repeat split.
Qed.

(** X10.  Building a built trade again returns the same trade: [build]
    reads none of the fields it sets, except the additional data, whose four
    keys it overwrites with the same values. *)
Theorem X10_build_idempotent (engineFactory : Factory) (this built : Trade) :
  build_ engineFactory this = Ok built ->
  build_ engineFactory built = Ok built.
Proof.
  intros H. invert_build H. merge_same. injection H as <-.
  unfold_build. unfold checkStructure.
  cbn [option_ barrier_ tradeActions boughtCurrency_ soldCurrency_
         boughtAmount_ soldAmount_ additionalData_].
  fold (checkStructure this).
  repeat feed.
  f_equal. f_equal.
  exact (describe_twice (additionalData_ this) (boughtCurrency_ this)
           (boughtAmount_ this) (soldCurrency_ this) (soldAmount_ this)).
Qed.

(** X11.  The additional data after a build.  The keys "boughtCurrency",
    "boughtAmount", "soldCurrency" and "soldAmount" hold the trade's own
    currencies and amounts, whatever was stored under them before; every
    other key holds what it held before. *)
Theorem X11_additional_data (engineFactory : Factory) (this built : Trade) :
  build_ engineFactory this = Ok built ->
  lookup (additionalData_ built) "boughtCurrency"
  = Some (any_string (boughtCurrency_ this))
  /\ lookup (additionalData_ built) "boughtAmount"
     = Some (any_Real (boughtAmount_ this))
  /\ lookup (additionalData_ built) "soldCurrency"
     = Some (any_string (soldCurrency_ this))
  /\ lookup (additionalData_ built) "soldAmount"
     = Some (any_Real (soldAmount_ this))
  /\ forall key,
       key <> "boughtCurrency"%string -> key <> "boughtAmount"%string ->
       key <> "soldCurrency"%string -> key <> "soldAmount"%string ->
       lookup (additionalData_ built) key = lookup (additionalData_ this) key.
Proof.
  intros H. invert_build H. injection H as <-. cbn [additionalData_].
  repeat split.
  intros key N1 N2 N3 N4. now rewrite !lookup_assign_other by assumption.
Qed.

(** X12.  Engine wiring.  In a built trade each of the four options, whether
    or not it is part of the composite, has the European exercise at the
    parsed exercise date and carries the engine returned by its builder: the
    builder found under "FxOption", asked with both currencies and the expiry
    date, for vanillaK and vanillaB; the builder found under
    "FxDigitalOption", asked with both currencies, for the digital and the
    rebate option. *)
Theorem X12_engine_wiring (engineFactory : Factory) (this built : Trade) :
  build_ engineFactory this = Ok built ->
  exists instrument boughtCcy soldCcy expiry expiryDate fxOptBuilder
         fxDigitalOptBuilder,
    instrument_ built = Some instrument
    /\ parseCurrency (boughtCurrency_ this) = Ok boughtCcy
    /\ parseCurrency (soldCurrency_ this) = Ok soldCcy
    /\ OptionData.exerciseDates (option_ this) = [expiry]
    /\ parseDate expiry = Ok expiryDate
    /\ builder engineFactory "FxOption"
       = Some (AsFxEuropeanOptionEngineBuilder fxOptBuilder)
    /\ builder engineFactory "FxDigitalOption"
       = Some (AsFxDigitalOptionEngineBuilder fxDigitalOptBuilder)
    /\ forall l,
         exercise (leaf (qlInstrument instrument) l)
         = EuropeanExercise expiryDate
         /\ exists e,
              engine_ (leaf (qlInstrument instrument) l) = Some e
              /\ match l with
                 | vanillaK | vanillaB =>
                     FxEuropeanOptionEngineBuilder.engine fxOptBuilder
                       boughtCcy soldCcy expiryDate
                 | digital | rebateInstrument =>
                     FxDigitalOptionEngineBuilder.engine fxDigitalOptBuilder
                       boughtCcy soldCcy
                 end = Ok e.
Proof.
  intros H. apply build_Ok_inv in H.
  destruct H as (boughtCcy & soldCcy & level & type & expiry & expiryDate
                 & barrierType & fxOpt & fxDig & eD & eK & eB & eR
                 & composite & positionType & premiums & instrument & H).
  destruct H as (C & EboughtCcy & EsoldCcy & Elevels & Rebate & Etype
                 & Edates & Edate & Ebarrier & B1 & B2 & ED & EK & EB & ER
                 & Ecomposite & Eposition & Epremiums & Einstrument
                 & Ecomponents & Ldigital & LvanillaK & LvanillaB & Lrebate
                 & _).
  exists instrument, boughtCcy, soldCcy, expiry, expiryDate, fxOpt, fxDig.
  repeat (split; [assumption|]).
  intros [].
  - rewrite Ldigital. split; [reflexivity|]. exists eD. now split.
  - rewrite LvanillaK. split; [reflexivity|]. exists eK. now split.
  - rewrite LvanillaB. split; [reflexivity|]. exists eB. now split.
  - rewrite Lrebate. split; [reflexivity|]. exists eR. now split.
Qed.

(** X13.  Parse failures are reported in source order.  Once the structure
    checks have passed, an error thrown by the currency parser on the bought
    currency is the error of [build]; then the one on the sold currency;
    then, the rebate being non-negative, the one of the option-type parser,
    of the date parser on the single exercise date, and of the barrier-type
    parser.  So an unknown currency is reported before a negative rebate,
    and a negative rebate before an unknown option type. *)
Theorem X13_parse_errors_in_order (engineFactory : Factory) (this : Trade) :
  checkStructure this = Ok tt ->
  (forall e,
      parseCurrency (boughtCurrency_ this) = Throw e ->
      build_ engineFactory this = Throw e)
  /\ (forall boughtCcy e,
        parseCurrency (boughtCurrency_ this) = Ok boughtCcy ->
        parseCurrency (soldCurrency_ this) = Throw e ->
        build_ engineFactory this = Throw e)
  /\ (forall boughtCcy soldCcy,
        parseCurrency (boughtCurrency_ this) = Ok boughtCcy ->
        parseCurrency (soldCurrency_ this) = Ok soldCcy ->
        0 <= BarrierData.rebate (barrier_ this) ->
        (forall e,
            parseOptionType (OptionData.callPut (option_ this)) = Throw e ->
            build_ engineFactory this = Throw e)
        /\ (forall type expiry e,
              parseOptionType (OptionData.callPut (option_ this)) = Ok type ->
              OptionData.exerciseDates (option_ this) = [expiry] ->
              parseDate expiry = Throw e ->
              build_ engineFactory this = Throw e)
        /\ (forall type expiry expiryDate e,
              parseOptionType (OptionData.callPut (option_ this)) = Ok type ->
              OptionData.exerciseDates (option_ this) = [expiry] ->
              parseDate expiry = Ok expiryDate ->
              parseBarrierType (BarrierData.type (barrier_ this)) = Throw e ->
              build_ engineFactory this = Throw e)).
Proof.
  intros C.
  destruct (front_guarded this C) as ((level & Elevel) & _).
  split; [|split].
  - intros e E. unfold_build. now repeat feed.
  - intros boughtCcy e Eb E. unfold_build. now repeat feed.
  - intros boughtCcy soldCcy Eb Es Rebate. apply Real_ge_iff in Rebate.
    split; [|split].
    + intros e E. unfold_build. now repeat feed.
    + intros type expiry e Et Edates E. unfold_build.
      rewrite Edates. cbn [front]. now repeat feed.
    + intros type expiry expiryDate e Et Edates Ed E. unfold_build.
      rewrite Edates. cbn [front]. now repeat feed.
Qed.

(** X14.  Long against short.  Two trades that differ only in the
    long/short indicator, one parsed as long and one as short, are built
    with the same composite, the same four options and engines; the
    multiplier of the long one is the bought amount times +1 and that of the
    short one the bought amount times -1. *)
Theorem X14_short_is_negated_long (engineFactory : Factory) (this : Trade)
    (long short : string) (builtLong builtShort : Trade) :
  parsePositionType long = Ok Long ->
  parsePositionType short = Ok Short ->
  build_ engineFactory (withLongShort this long) = Ok builtLong ->
  build_ engineFactory (withLongShort this short) = Ok builtShort ->
  exists instrumentLong instrumentShort,
    instrument_ builtLong = Some instrumentLong
    /\ instrument_ builtShort = Some instrumentShort
    /\ qlInstrument instrumentShort = qlInstrument instrumentLong
    /\ multiplier instrumentLong = boughtAmount_ this * 1
    /\ multiplier instrumentShort = boughtAmount_ this * -1
    /\ multiplier instrumentShort == - multiplier instrumentLong.
Proof.
  intros PL PS HL HS.
  invert_build HL. invert_build HS.
  unfold checkStructure in *.
  cbn [withLongShort option_ barrier_ tradeActions boughtCurrency_
         soldCurrency_ boughtAmount_ soldAmount_ additionalData_
         OptionData.style OptionData.exerciseDates OptionData.callPut
         OptionData.longShort OptionData.premiumData] in *.
  merge_same.
  injection HL as <-. injection HS as <-.
  eexists. eexists.
  split; [reflexivity|]. split; [reflexivity|].
  cbn [qlInstrument multiplier PositionType.eqb].
  repeat split. ring.
Qed.

(** X15.  Guarded reads.  Suppose no parser, engine builder or premium hook
    ends in undefined behaviour itself.  Then [build] never reads an empty
    vector, and the only null pointers it can dereference are the engine
    factory it is handed, which line 40 goes through untested, and the
    result of a failed cast: if [build] ends in undefined behaviour, either
    the factory pointer is null, or a builder was found under
    "FxDigitalOption" or under "FxOption" that is not of the class the name
    stands for.  A null factory does end in undefined behaviour, before any
    check of the trade. *)
Theorem X15_undefined_only_by_null (engineFactory : option Factory)
    (this : Trade) :
  (forall s, parseCurrency s <> Throw UndefinedBehaviour) ->
  (forall s, parseOptionType s <> Throw UndefinedBehaviour) ->
  (forall s, parseBarrierType s <> Throw UndefinedBehaviour) ->
  (forall s, parsePositionType s <> Throw UndefinedBehaviour) ->
  (forall s, parseDate s <> Throw UndefinedBehaviour) ->
  (forall factory name b c1 c2 d,
      engineFactory = Some factory ->
      builder factory name = Some (AsFxEuropeanOptionEngineBuilder b) ->
      FxEuropeanOptionEngineBuilder.engine b c1 c2 d
      <> Throw UndefinedBehaviour) ->
  (forall factory name b c1 c2,
      engineFactory = Some factory ->
      builder factory name = Some (AsFxDigitalOptionEngineBuilder b) ->
      FxDigitalOptionEngineBuilder.engine b c1 c2
      <> Throw UndefinedBehaviour) ->
  (forall factory mult premiumData sign ccy configuration,
      engineFactory = Some factory ->
      addPremiums [] [] mult premiumData sign ccy factory configuration
      <> Throw UndefinedBehaviour) ->
  (engineFactory = None ->
   build parseCurrency parseOptionType parseBarrierType parsePositionType
     parseDate addPremiums engineFactory this
   = Throw UndefinedBehaviour)
  /\ (build parseCurrency parseOptionType parseBarrierType parsePositionType
        parseDate addPremiums engineFactory this
      = Throw UndefinedBehaviour ->
      engineFactory = None
      \/ (exists factory b,
            engineFactory = Some factory
            /\ builder factory "FxDigitalOption" = Some b
            /\ castFxDigitalOptionEngineBuilder (Some b) = None)
      \/ (exists factory b,
            engineFactory = Some factory
            /\ builder factory "FxOption" = Some b
            /\ castFxEuropeanOptionEngineBuilder (Some b) = None)).
Proof.
  intros NC NT NB NP ND NEO NED NA.
  split; [intros ->; reflexivity|].
  intros H.
  destruct engineFactory as [factory|]; [|now left].
  right.
  specialize (NEO factory). specialize (NED factory). specialize (NA factory).
  unfold build in H. cbn [deref bind] in H.
  destruct (checkStructure this) as [[]|e] eqn:C.
  2:{ destruct (checkStructure_Throw this) as (message & E);
        [congruence | rewrite E in C; injection C as <-; discriminate H]. }
  destruct (front_guarded this C) as ((level & Elevel) & (expiry & Eexpiry)).
  cbn [bind] in H. unfold buildChecked, buildReplication in H.
  rewrite Elevel, Eexpiry in H.
  destruct (parseCurrency (boughtCurrency_ this)) as [boughtCcy|e] eqn:E1;
    [|injection H as ->; now elim (NC _ E1)].
  destruct (parseCurrency (soldCurrency_ this)) as [soldCcy|e] eqn:E2;
    [|injection H as ->; now elim (NC _ E2)].
  cbn [bind] in H. unfold QL_REQUIRE at 1 in H.
  destruct (Real_ge (BarrierData.rebate (barrier_ this)) 0);
    [|discriminate H].
  cbn [bind] in H.
  destruct (parseOptionType _) as [type|e] eqn:E3;
    [|injection H as ->; now elim (NT _ E3)].
  cbn [bind] in H.
  destruct (parseDate expiry) as [expiryDate|e] eqn:E4;
    [|injection H as ->; now elim (ND _ E4)].
  cbn [bind] in H.
  destruct (parseBarrierType _) as [barrierType|e] eqn:E5;
    [|injection H as ->; now elim (NB _ E5)].
  cbn [bind] in H.
  destruct (builder factory "FxOption") as [b1|] eqn:B1;
    [|discriminate H].
  destruct (builder factory "FxDigitalOption") as [b2|] eqn:B2;
    [|discriminate H].
  cbn [notNull QL_REQUIRE bind] in H.
  destruct (castFxDigitalOptionEngineBuilder (Some b2)) as [fxDig|] eqn:C2;
    [|left; exists factory, b2; now repeat split].
  destruct (castFxEuropeanOptionEngineBuilder (Some b1)) as [fxOpt|] eqn:C1;
    [|right; exists factory, b1; now repeat split].
  cbn [deref bind] in H.
  destruct b1 as [b1| |]; try discriminate C1. injection C1 as ->.
  destruct b2 as [|b2|]; try discriminate C2. injection C2 as ->.
  destruct (FxDigitalOptionEngineBuilder.engine fxDig boughtCcy soldCcy)
    as [eD|e] eqn:E6;
    [|injection H as ->; now elim (NED _ _ _ _ eq_refl B2 E6)].
  cbn [bind] in H.
  destruct (FxEuropeanOptionEngineBuilder.engine fxOpt boughtCcy soldCcy
              expiryDate)
    as [eV|e] eqn:E7;
    [|injection H as ->; now elim (NEO _ _ _ _ _ eq_refl B1 E7)].
  cbn [bind] in H.
  rewrite replicate_table in H. cbn [bind] in H.
  destruct (parsePositionType _) as [positionType|e] eqn:E8;
    [|injection H as ->; now elim (NP _ E8)].
  cbn [bind] in H.
  match type of H with
  | bind ?call _ = _ =>
      destruct call as [premiums|e] eqn:E9;
        [discriminate H
        |injection H as ->; now elim (NA _ _ _ _ _ eq_refl E9)]
  end.
Qed.

End BuildFurther.

(** ** The further properties on concrete trades *)

Lemma callUpOut_parses :
  parsesTo Sample.parseCurrency Sample.parseOptionType Sample.parseBarrierType
    Sample.parseDate Sample.callUpOut "EUR"%string "USD"%string Call 44012%Z
    UpOut.
Proof.
  unfold parsesTo. repeat split; try discriminate.
  exists "2020-06-30"%string. split; reflexivity.
Qed.

Lemma callUpOutBelow_parses :
  parsesTo Sample.parseCurrency Sample.parseOptionType Sample.parseBarrierType
    Sample.parseDate Scenario.callUpOutBelow "EUR"%string "USD"%string Call
    44012%Z UpOut.
Proof.
  unfold parsesTo. repeat split; try discriminate.
  exists "2020-06-30"%string. split; reflexivity.
Qed.

Lemma run_described :
  Scenario.run Sample.engineFactory Scenario.described
  = Ok (Scenario.built Sample.engineFactory Scenario.described).
Proof. vm_compute. reflexivity. Qed.

Lemma X4_structure_check_messages_witness :
  Scenario.run Sample.engineFactory Scenario.american
  = Throw (QL_Error "Option Style unknown: American").
Proof.
  apply (proj1 (X4_structure_check_messages Sample.parseCurrency
                  Sample.parseOptionType Sample.parseBarrierType
                  Sample.parsePositionType Sample.parseDate
                  (Sample.addPremiums 0%Z) Sample.engineFactory
                  Scenario.american)).
  discriminate.
Defined.

Lemma X5_missing_builder_witness :
  Scenario.run Scenario.noBuilders Sample.callUpOut
  = Throw (QL_Error "No builder found for FxOption")
  /\ Scenario.run Scenario.noDigitalBuilder Sample.callUpOut
     = Throw (QL_Error "No builder found for FxDigitalOption").
Proof.
  split.
  - apply (proj1 (X5_missing_builder Sample.parseCurrency
                    Sample.parseOptionType Sample.parseBarrierType
                    Sample.parsePositionType Sample.parseDate
                    (Sample.addPremiums 0%Z) Scenario.noBuilders
                    Sample.callUpOut _ _ _ _ _ callUpOut_parses)).
    reflexivity.
  - apply (proj2 (X5_missing_builder Sample.parseCurrency
                    Sample.parseOptionType Sample.parseBarrierType
                    Sample.parsePositionType Sample.parseDate
                    (Sample.addPremiums 0%Z) Scenario.noDigitalBuilder
                    Sample.callUpOut _ _ _ _ _ callUpOut_parses)).
    + discriminate.
    + reflexivity.
Defined.

Lemma X6_unchecked_cast_witness :
  Scenario.run Scenario.wrongDigitalClass Sample.callUpOut
  = Throw UndefinedBehaviour
  /\ Scenario.run Scenario.wrongOptionClass Sample.callUpOut
     = Throw UndefinedBehaviour.
Proof.
  split.
  - apply (proj1 (X6_unchecked_cast Sample.parseCurrency
                    Sample.parseOptionType Sample.parseBarrierType
                    Sample.parsePositionType Sample.parseDate
                    (Sample.addPremiums 0%Z) Scenario.wrongDigitalClass
                    Sample.callUpOut _ _ _ _ _ callUpOut_parses
                    ltac:(discriminate) ltac:(discriminate))).
    reflexivity.
  - apply (proj2 (X6_unchecked_cast Sample.parseCurrency
                    Sample.parseOptionType Sample.parseBarrierType
                    Sample.parsePositionType Sample.parseDate
                    (Sample.addPremiums 0%Z) Scenario.wrongOptionClass
                    Sample.callUpOut _ _ _ _ _ callUpOut_parses
                    ltac:(discriminate) ltac:(discriminate))
             Sample.fxDigitalOptionBuilder "AnalyticEuropeanEngine"%string);
      reflexivity.
Defined.

Lemma X7_engine_errors_witness :
  replicate Call UpOut 80 100 = Ok [(rebateInstrument, 1)]
  /\ Scenario.run Scenario.failingOptionEngine Scenario.callUpOutBelow
     = Throw Scenario.noVolatility.
Proof.
  split; [reflexivity|].
  apply (proj2 (X7_engine_errors Sample.parseCurrency
                  Sample.parseOptionType Sample.parseBarrierType
                  Sample.parsePositionType Sample.parseDate
                  (Sample.addPremiums 0%Z) Scenario.failingOptionEngine
                  Scenario.callUpOutBelow _ _ _ _ _
                  Scenario.failingOptionBuilder Sample.fxDigitalOptionBuilder
                  callUpOutBelow_parses eq_refl eq_refl)
           "AnalyticEuropeanEngine"%string);
    reflexivity.
Defined.

Lemma X9_build_keeps_terms_witness :
  boughtAmount_ (Sample.built 44100%Z Sample.callUpOut) = 1
  /\ soldAmount_ (Sample.built 44100%Z Sample.callUpOut) = 100.
Proof.
  destruct (X9_build_keeps_terms Sample.parseCurrency Sample.parseOptionType
              Sample.parseBarrierType Sample.parsePositionType
              Sample.parseDate (Sample.addPremiums 44100%Z)
              Sample.engineFactory Sample.callUpOut
              (Sample.built 44100%Z Sample.callUpOut) run_callUpOut)
    as (_ & _ & _ & _ & _ & Hbought & Hsold).
  exact (conj Hbought Hsold).
Defined.

Lemma X10_build_idempotent_witness :
  Sample.run 44100%Z (Sample.built 44100%Z Sample.callUpOut)
  = Ok (Sample.built 44100%Z Sample.callUpOut).
Proof.
  exact (X10_build_idempotent Sample.parseCurrency Sample.parseOptionType
           Sample.parseBarrierType Sample.parsePositionType
           Sample.parseDate (Sample.addPremiums 44100%Z)
           Sample.engineFactory Sample.callUpOut
           (Sample.built 44100%Z Sample.callUpOut) run_callUpOut).
Defined.

Lemma X11_additional_data_witness :
  lookup (additionalData_ (Scenario.built Sample.engineFactory Scenario.described))
    "boughtAmount" = Some (any_Real 1)
  /\ lookup (additionalData_ (Scenario.built Sample.engineFactory Scenario.described))
       "desk" = Some (any_string "FX").
Proof.
  destruct (X11_additional_data Sample.parseCurrency Sample.parseOptionType
              Sample.parseBarrierType Sample.parsePositionType
              Sample.parseDate (Sample.addPremiums 0%Z)
              Sample.engineFactory Scenario.described
              (Scenario.built Sample.engineFactory Scenario.described)
              run_described)
    as (_ & Hbought & _ & _ & Hother).
  split; [exact Hbought|].
  rewrite Hother by discriminate. reflexivity.
Defined.

Lemma X12_engine_wiring_witness :
  exists instrument,
    instrument_ (Sample.built 44100%Z Sample.callUpOut) = Some instrument
    /\ exercise (leaf (qlInstrument instrument) digital)
       = EuropeanExercise 44012%Z.
Proof.
  destruct (X12_engine_wiring Sample.parseCurrency Sample.parseOptionType
              Sample.parseBarrierType Sample.parsePositionType
              Sample.parseDate (Sample.addPremiums 44100%Z)
              Sample.engineFactory Sample.callUpOut
              (Sample.built 44100%Z Sample.callUpOut) run_callUpOut)
    as (instrument & boughtCcy & soldCcy & expiry & expiryDate & fxOpt & fxDig
        & Hinstrument & _ & _ & Hdates & Hdate & _ & _ & Hleaves).
  exists instrument. split; [exact Hinstrument|].
  destruct (Hleaves digital) as (Hexercise & _). rewrite Hexercise.
  injection Hdates as <-. injection Hdate as <-. reflexivity.
Defined.

Lemma X13_parse_errors_in_order_witness :
  BarrierData.rebate (barrier_ Scenario.badCurrency) < 0
  /\ Scenario.run Sample.engineFactory Scenario.badCurrency
     = Throw (QL_Error "Currency not recognised").
Proof.
  split; [reflexivity|].
  exact (proj1 (X13_parse_errors_in_order Sample.parseCurrency
                  Sample.parseOptionType Sample.parseBarrierType
                  Sample.parsePositionType Sample.parseDate
                  (Sample.addPremiums 0%Z) Sample.engineFactory
                  Scenario.badCurrency eq_refl)
           (QL_Error "Currency not recognised") eq_refl).
Defined.

Lemma run_long :
  Scenario.run Sample.engineFactory (withLongShort Sample.callUpOut "Long")
  = Ok (Scenario.built Sample.engineFactory
          (withLongShort Sample.callUpOut "Long")).
Proof. vm_compute. reflexivity. Qed.

Lemma run_short :
  Scenario.run Sample.engineFactory (withLongShort Sample.callUpOut "Short")
  = Ok (Scenario.built Sample.engineFactory
          (withLongShort Sample.callUpOut "Short")).
Proof. vm_compute. reflexivity. Qed.

Lemma X14_short_is_negated_long_witness :
  exists instrumentLong instrumentShort,
    instrument_ (Scenario.built Sample.engineFactory
                   (withLongShort Sample.callUpOut "Long"))
    = Some instrumentLong
    /\ instrument_ (Scenario.built Sample.engineFactory
                      (withLongShort Sample.callUpOut "Short"))
       = Some instrumentShort
    /\ qlInstrument instrumentShort = qlInstrument instrumentLong
    /\ multiplier instrumentShort == - multiplier instrumentLong.
Proof.
  destruct (X14_short_is_negated_long Sample.parseCurrency
              Sample.parseOptionType Sample.parseBarrierType
              Sample.parsePositionType Sample.parseDate
              (Sample.addPremiums 0%Z) Sample.engineFactory Sample.callUpOut
              "Long" "Short" _ _ eq_refl eq_refl run_long run_short)
    as (iL & iS & HL & HS & Hq & _ & _ & Hm).
  exists iL, iS. repeat split; assumption.
Defined.

Lemma Sample_parsers_defined :
  (forall s, Sample.parseCurrency s <> Throw UndefinedBehaviour)
  /\ (forall s, Sample.parseOptionType s <> Throw UndefinedBehaviour)
  /\ (forall s, Sample.parseBarrierType s <> Throw UndefinedBehaviour)
  /\ (forall s, Sample.parsePositionType s <> Throw UndefinedBehaviour)
  /\ (forall s, Sample.parseDate s <> Throw UndefinedBehaviour).
Proof.
  repeat split; intros s;
    unfold Sample.parseCurrency, Sample.parseOptionType,
      Sample.parseBarrierType, Sample.parsePositionType, Sample.parseDate;
    repeat match goal with
           | |- context [if ?c then _ else _] => destruct c
           end;
    discriminate.
Qed.

Lemma wrongDigitalClass_engines_defined :
  (forall factory name b c1 c2 d,
      Some Scenario.wrongDigitalClass = Some factory ->
      builder factory name = Some (AsFxEuropeanOptionEngineBuilder b) ->
      FxEuropeanOptionEngineBuilder.engine b c1 c2 d
      <> Throw UndefinedBehaviour)
  /\ (forall factory name b c1 c2,
        Some Scenario.wrongDigitalClass = Some factory ->
        builder factory name = Some (AsFxDigitalOptionEngineBuilder b) ->
        FxDigitalOptionEngineBuilder.engine b c1 c2
        <> Throw UndefinedBehaviour).
Proof.
  split; intros factory name b; intros; revert H0;
    injection H as <-; simpl;
    repeat match goal with
           | |- context [if ?c then _ else _] => destruct c
           end;
    intros [= <-] || discriminate; discriminate.
Qed.

Lemma X15_undefined_only_by_null_witness :
  Scenario.run Scenario.wrongDigitalClass Sample.callUpOut
  = Throw UndefinedBehaviour
  /\ (Some Scenario.wrongDigitalClass = None
      \/ (exists factory b,
            Some Scenario.wrongDigitalClass = Some factory
            /\ builder factory "FxDigitalOption" = Some b
            /\ castFxDigitalOptionEngineBuilder (Some b) = None)
      \/ (exists factory b,
            Some Scenario.wrongDigitalClass = Some factory
            /\ builder factory "FxOption" = Some b
            /\ castFxEuropeanOptionEngineBuilder (Some b) = None)).
Proof.
  split; [reflexivity|].
  destruct Sample_parsers_defined as (NC & NT & NB & NP & ND).
  destruct wrongDigitalClass_engines_defined as (NEO & NED).
  apply (X15_undefined_only_by_null Sample.parseCurrency
           Sample.parseOptionType Sample.parseBarrierType
           Sample.parsePositionType Sample.parseDate
           (Sample.addPremiums 0%Z) (Some Scenario.wrongDigitalClass)
           Sample.callUpOut NC NT NB NP ND NEO NED).
  - intros. discriminate.
  - reflexivity.
Defined.

(** A null engine factory: line 40 dereferences it before any check of the
    trade, here a trade that would fail the first structure check. *)
Example run_null_factory :
  build Sample.parseCurrency Sample.parseOptionType Sample.parseBarrierType
    Sample.parsePositionType Sample.parseDate (Sample.addPremiums 0%Z)
    None Scenario.american
  = Throw UndefinedBehaviour.
Proof. reflexivity. Qed.
